(** * chauffage: the MQTT heater controller of [start.py]

    A shallow embedding of [start.py] (the comfort schedule, the bounded
    queue of readings and the two MQTT callbacks of [MqttClient]) and the
    properties of its control decisions.

    Python values are modelled as the interpreter has them: the decoded JSON
    payload is a tree of [json] values, Python floats are IEEE 754 binary64
    numbers ([spec_float] at precision 53), Python ints are [Z].  A callback
    runs in a small monad that threads the attributes of [self], collects
    the effects (log records, MQTT calls, file writes) in order, and
    propagates a raised exception until a [try] catches it. *)

From Stdlib Require Import ZArith List String Ascii Bool Lia.
From Stdlib Require Import Floats.SpecFloat.
Import ListNotations.
Set Warnings "-register-all".
Local Open Scope string_scope.
Local Open Scope list_scope.
Local Open Scope Z_scope.

(** ** Python values *)

Module Py.

(** Python's [float] is a binary64 number. *)
Definition prec : Z := 53.
Definition emax : Z := 1024.
Definition pyfloat : Type := spec_float.

Definition float_of_Z (z : Z) : pyfloat := binary_normalize prec emax z 0 false.
Definition float_add : pyfloat -> pyfloat -> pyfloat := SFadd prec emax.
Definition float_sub : pyfloat -> pyfloat -> pyfloat := SFsub prec emax.
Definition float_div : pyfloat -> pyfloat -> pyfloat := SFdiv prec emax.

(** What [json.loads] returns: [None], [bool], [int], [float] (the decoder
    also accepts [NaN] and [Infinity]), [str], [list] and [dict].  A dict
    is the list of its items; a key is looked up from the left. *)
Inductive json : Type :=
| JNull
| JBool (b : bool)
| JInt (z : Z)
| JFloat (f : pyfloat)
| JStr (s : string)
| JList (l : list json)
| JObj (kvs : list (string * json)).

(** The numbers of the arithmetic and comparison operators. *)
Inductive pynum : Type :=
| NInt (z : Z)
| NFloat (f : pyfloat).

(** [bool(v)]: the truth value an [if] or an [and] tests. *)
Definition truthy (v : json) : bool :=
  match v with
  | JNull => false
  | JBool b => b
  | JInt z => negb (z =? 0)
  | JFloat (S754_zero _) => false
  | JFloat _ => true
  | JStr s => match s with EmptyString => false | String _ _ => true end
  | JList l => match l with [] => false | _ => true end
  | JObj kvs => match kvs with [] => false | _ => true end
  end.

Fixpoint lookup (k : string) (kvs : list (string * json)) : option json :=
  match kvs with
  | [] => None
  | (k', v) :: rest => if (k' =? k)%string then Some v else lookup k rest
  end.

(** [v[k]] for a string [k].  [None] is a raised exception: [KeyError] on a
    dict without the key, [TypeError] on every other value. *)
Definition getitem (v : json) (k : string) : option json :=
  match v with
  | JObj kvs => lookup k kvs
  | _ => None
  end.

Fixpoint is_prefix (p s : string) : bool :=
  match p, s with
  | EmptyString, _ => true
  | String a p', String b s' => Ascii.eqb a b && is_prefix p' s'
  | String _ _, EmptyString => false
  end.

Fixpoint is_substring (p s : string) : bool :=
  is_prefix p s ||
  match s with
  | EmptyString => false
  | String _ s' => is_substring p s'
  end.

(** [k in v] for a string [k]: a key of a dict, a substring of a str, an
    element of a list; [TypeError] ([None]) on the other values. *)
Definition contains (k : string) (v : json) : option bool :=
  match v with
  | JObj kvs => Some (match lookup k kvs with Some _ => true | None => false end)
  | JStr s => Some (is_substring k s)
  | JList l => Some (existsb (fun x => match x with JStr s => (s =? k)%string | _ => false end) l)
  | _ => None
  end.

(** [v == s] for a string [s]. *)
Definition eq_str (v : json) (s : string) : bool :=
  match v with
  | JStr s' => (s' =? s)%string
  | _ => false
  end.

(** The operand of an ordering comparison with a number: [bool] is a
    subclass of [int]; the other values raise [TypeError] ([None]). *)
Definition as_number (v : json) : option pynum :=
  match v with
  | JBool b => Some (NInt (if b then 1 else 0))
  | JInt z => Some (NInt z)
  | JFloat f => Some (NFloat f)
  | _ => None
  end.

(** An [int] against a [float]: Python compares the exact values. *)
Definition Zcompare_SF (z : Z) (f : pyfloat) : option comparison :=
  match f with
  | S754_nan => None
  | S754_infinity s => Some (if s then Gt else Lt)
  | S754_zero _ => Some (z ?= 0)
  | S754_finite s m e =>
      let v := if s then Zneg m else Zpos m in
      Some match e with
           | Zneg p => (z * 2 ^ Zpos p ?= v)
           | _ => (z ?= v * 2 ^ e)
           end
  end.

Definition num_compare (a b : pynum) : option comparison :=
  match a, b with
  | NInt x, NInt y => Some (x ?= y)
  | NInt x, NFloat g => Zcompare_SF x g
  | NFloat f, NInt y => option_map CompOpp (Zcompare_SF y f)
  | NFloat f, NFloat g => SFcompare f g
  end.

(** [a < b], [a > b] and [a <= b]; a comparison with NaN is false. *)
Definition num_lt (a b : pynum) : bool :=
  match num_compare a b with Some Lt => true | _ => false end.
Definition num_gt (a b : pynum) : bool :=
  match num_compare a b with Some Gt => true | _ => false end.
Definition num_le (a b : pynum) : bool :=
  match num_compare a b with Some (Lt | Eq) => true | _ => false end.

(** The same operators on a decoded value, raising on a non-number. *)
Definition lt (v : json) (b : pynum) : option bool :=
  option_map (fun a => num_lt a b) (as_number v).
Definition gt (v : json) (b : pynum) : option bool :=
  option_map (fun a => num_gt a b) (as_number v).
Definition le (v : json) (b : pynum) : option bool :=
  option_map (fun a => num_le a b) (as_number v).
Definition ge (v : json) (b : pynum) : option bool :=
  option_map (fun a => num_le b a) (as_number v).

(** Mixed arithmetic converts the [int] operand to [float].  (The
    conversion of an int beyond the float range raises in Python; the
    ints of this program are the literals and the initial [0].) *)
Definition to_float (a : pynum) : pyfloat :=
  match a with
  | NInt z => float_of_Z z
  | NFloat f => f
  end.

Definition num_sub (a b : pynum) : pynum :=
  match a, b with
  | NInt x, NInt y => NInt (x - y)
  | _, _ => NFloat (float_sub (to_float a) (to_float b))
  end.

Definition is_zero (a : pynum) : bool :=
  match a with
  | NInt z => z =? 0
  | NFloat (S754_zero _) => true
  | NFloat _ => false
  end.

(** [a / b]: true division, [ZeroDivisionError] ([None]) on a zero divisor. *)
Definition num_truediv (a b : pynum) : option pynum :=
  if is_zero b then None
  else Some (NFloat (float_div (to_float a) (to_float b))).

(** [round(x)] with one argument: the nearest int, ties to the even one;
    [ValueError] on NaN and [OverflowError] on an infinity. *)
Definition round_float (x : pyfloat) : option Z :=
  match x with
  | S754_nan | S754_infinity _ => None
  | S754_zero _ => Some 0
  | S754_finite s m e =>
      let n :=
        match e with
        | Zneg p =>
            let d := 2 ^ Zpos p in
            let q := Zpos m / d in
            let r := Zpos m mod d in
            match (2 * r ?= d) with
            | Lt => q
            | Gt => q + 1
            | Eq => if Z.even q then q else q + 1
            end
        | _ => Zpos m * 2 ^ e
        end in
      Some (if s then - n else n)
  end.

Definition round (a : pynum) : option Z :=
  match a with
  | NInt z => Some z
  | NFloat f => round_float f
  end.

End Py.

Import Py.

(** ** Module constants of [start.py] *)

(** [consigne = 21.8] and [hyst = 0.2]: the binary64 numbers nearest to the
    decimal literals, [0x1.5cccccccccccdp+4] and [0x1.999999999999ap-3]. *)
Definition consigne : pyfloat := S754_finite false 6136154492292301 (-48).
Definition hyst : pyfloat := S754_finite false 7205759403792794 (-55).

(** ** [datetime] and the comfort schedule *)

Record datetime : Type := mk_datetime {
  year : Z; month : Z; day : Z;
  hour : Z; minute : Z; second : Z
}.

(** [is_confort(date)] *)
Definition is_confort (date : datetime) : bool :=
  if (hour date >=? 6) && (hour date <? 8) then true
  else if (hour date >=? 19) && (hour date <? 21) then true
  else false.

(** ** The queue of states: [deque(maxlen=100)] *)

Record reading : Type := mk_reading {
  date : datetime;
  temperature : json;
  humidity : json
}.

Record deque : Type := mk_deque {
  items : list reading;
  maxlen : option nat
}.

(** [deque.append(x)]: add on the right, then drop the leftmost item when
    the deque has become longer than its [maxlen]. *)
Definition deque_append (q : deque) (x : reading) : deque :=
  let l := items q ++ [x] in
  match maxlen q with
  | Some n =>
      if (n <? List.length l)%nat then mk_deque (tl l) (maxlen q)
      else mk_deque l (maxlen q)
  | None => mk_deque l None
  end.

(** [read_states(f)]: the unpickled file when there is one ([Some q]), a new
    [deque(maxlen=100)] otherwise. *)
Definition read_states (f : option deque) : deque :=
  match f with
  | Some states => states
  | None => mk_deque [] (Some 100%nat)
  end.

(** ** Effects of a callback *)

(** The records the callbacks hand to [self.logger], one constructor for
    each call site (the text of a caught exception is not kept). *)
Inductive log_record : Type :=
| LogConnected                       (* debug 'Connected to Mosquitto' *)
| LogSubscribing                     (* debug 'Subscribing to tele/tasmota_9DA6D1/*' *)
| LogMessage (topic : string) (message : json)   (* debug f'{msg.topic} | {message}' *)
| LogErrTimestamp                    (* error 'Error occured while parsing timestamp' *)
| LogErrTemperature                  (* error 'Error occured while parsing temperature' *)
| LogErrHumidity                     (* error 'Error occured while parsing humidity' *)
| LogState (r : reading)             (* info f'date=... temperature=... humidity=...' *)
| LogAutomatic                       (* debug 'Not forced / Automatic mode' *)
| LogConfort                         (* debug 'Confort period' *)
| LogHotEnough                       (* debug 'Hot enough, shutting off' *)
| LogNotHotEnough                    (* debug 'Not hot enough, turning on' *)
| LogForced (status : json) (time_left : Z)  (* debug f'Manually forced to ...' *)
| LogHeaterIs (status : json)        (* info f'Heater is {self.status}' *)
| LogHeaterForced (status : json)    (* info f'Heater is forced {self.status}' *)
| LogErrOccured                      (* error 'Error occured: ...' *)
| LogPowerOn                         (* debug 'Asking power ON' *)
| LogPowerOff.                       (* debug 'Asking power OFF' *)

Inductive effect : Type :=
| Log (r : log_record)
| Subscribe (topic : string)
| Publish (topic payload : string)
| SaveStates (states : deque).       (* pickle.dump(states) into the queue file *)

(** The attributes of [MqttClient] the callbacks read and write. *)
Record MqttClient : Type := mk_client {
  queue : deque;
  status : json;
  command_sent : bool;
  forced_ts : pynum
}.

(** A computation: from the attributes of [self] to a result ([None] when an
    exception is propagating), the attributes after it and the effects it
    had, oldest first.  An exception keeps the assignments and effects made
    before it was raised. *)
Definition M (A : Type) : Type := MqttClient -> option A * MqttClient * list effect.

Definition ret {A} (a : A) : M A := fun s => (Some a, s, []).

Definition bind {A B} (m : M A) (f : A -> M B) : M B :=
  fun s =>
    match m s with
    | (Some a, s1, t1) => let '(r, s2, t2) := f a s1 in (r, s2, t1 ++ t2)
    | (None, s1, t1) => (None, s1, t1)
    end.

Definition raise {A} : M A := fun s => (None, s, []).

(** [try: body / except Exception: handler] *)
Definition try_except {A} (body handler : M A) : M A :=
  fun s =>
    match body s with
    | (Some a, s1, t1) => (Some a, s1, t1)
    | (None, s1, t1) => let '(r, s2, t2) := handler s1 in (r, s2, t1 ++ t2)
    end.

Notation "x <- m ;; k" := (bind m (fun x => k))
  (at level 61, m at next level, right associativity).
Notation "m ;; k" := (bind m (fun _ => k))
  (at level 61, right associativity).

Definition emit (e : effect) : M unit := fun s => (Some tt, s, [e]).
Definition get {A} (f : MqttClient -> A) : M A := fun s => (Some (f s), s, []).
Definition put (f : MqttClient -> MqttClient) : M unit := fun s => (Some tt, f s, []).

(** An expression that may raise: [None] raises. *)
Definition eval {A} (o : option A) : M A :=
  match o with
  | Some a => ret a
  | None => raise
  end.

(** [if c: body] without an [else]. *)
Definition when (c : bool) (body : M unit) : M unit :=
  if c then body else ret tt.

(** A local variable assigned inside a [try] whose handler only logs: bound
    to the value when the assignment ran, left unbound ([None]) when the
    expression raised. *)
Definition try_assign {A} (e : option A) (handler : M unit) : M (option A) :=
  try_except (v <- eval e ;; ret (Some v)) (handler ;; ret None).

(** Reading a local variable; [UnboundLocalError] when it was never bound. *)
Definition load {A} (x : option A) : M A := eval x.

Definition set_status (v : json) : MqttClient -> MqttClient :=
  fun s => mk_client (queue s) v (command_sent s) (forced_ts s).
Definition set_command_sent (b : bool) : MqttClient -> MqttClient :=
  fun s => mk_client (queue s) (status s) b (forced_ts s).
Definition set_forced_ts (t : pynum) : MqttClient -> MqttClient :=
  fun s => mk_client (queue s) (status s) (command_sent s) t.
Definition set_queue (q : deque) : MqttClient -> MqttClient :=
  fun s => mk_client q (status s) (command_sent s) (forced_ts s).

Definition logger (r : log_record) : M unit := emit (Log r).

(** ** The callbacks of [MqttClient] *)

(** An incoming MQTT message: its topic and what [json.loads(msg.payload)]
    returns ([None] when the payload is not JSON and the decoder raises). *)
Record mqtt_msg : Type := mk_msg {
  topic : string;
  payload : option json
}.

(** What the callback gets from the machine while it runs: the clock read by
    [time.time()] and whether the queue file can be written. *)
Record environ : Type := mk_environ {
  time_time : pyfloat;
  can_save : bool
}.

Definition SENSOR : string := "tele/tasmota_9DA6D1/SENSOR".
Definition RESULT : string := "stat/tasmota_9DA6D1/RESULT".
Definition POWER : string := "cmnd/tasmota_9DA6D1/POWER".

Definition obind {A B} (o : option A) (f : A -> option B) : option B :=
  match o with
  | Some a => f a
  | None => None
  end.

(** [__init__]: the queue read from the file, no status yet, no command
    sent, [forced_ts = 0]. *)
Definition init (file : option deque) : MqttClient :=
  mk_client (read_states file) JNull false (NInt 0).

(** [poweron()] and [poweroff()] *)
Definition poweron : M unit :=
  logger LogPowerOn ;;
  put (set_command_sent true) ;;
  emit (Publish POWER "ON").

Definition poweroff : M unit :=
  logger LogPowerOff ;;
  put (set_command_sent true) ;;
  emit (Publish POWER "OFF").

(** [on_connect()] *)
Definition on_connect : M unit :=
  logger LogConnected ;;
  logger LogSubscribing ;;
  emit (Subscribe SENSOR) ;;
  emit (Subscribe RESULT) ;;
  put (set_command_sent true) ;;
  emit (Publish POWER "Hello world!").

(** [save_states(f, states)]: [open] raises when the file cannot be written. *)
Definition save_states (env : environ) (states : deque) : M unit :=
  if can_save env then emit (SaveStates states) else raise.

Section Callbacks.

(** The two library calls on dates: [datetime.strptime(s, "%Y-%m-%dT%H:%M:%S")]
    ([None] when it raises [ValueError]) and [datetime.timestamp(date)] of
    a naive date in the time zone of the machine. *)
Variable strptime : string -> option datetime.
Variable timestamp : datetime -> pyfloat.

(** [dt.strptime(v, ...)] raises [TypeError] when [v] is not a [str]. *)
Definition strptime_value (v : json) : option datetime :=
  match v with
  | JStr s => strptime s
  | _ => None
  end.

(** Line 135, [self.forced_ts < dt.timestamp(date) - 3600]: the reading is
    handled in automatic mode. *)
Definition automatic (forced : pynum) (date : datetime) : bool :=
  num_lt forced (num_sub (NFloat (timestamp date)) (NInt 3600)).

(** Line 158, [round((3600 - (dt.timestamp(date) - self.forced_ts))/60)]. *)
Definition time_left (forced : pynum) (date : datetime) : option Z :=
  obind (num_truediv
           (num_sub (NInt 3600) (num_sub (NFloat (timestamp date)) forced))
           (NInt 60))
        round.

(** Lines 134-159 of [on_message]: the decision on a reading that passed
    the guard and was saved. *)
Definition control (date : datetime) (temperature : json) : M unit :=
  forced <- get forced_ts ;;
  if automatic forced date then
    logger LogAutomatic ;;
    if is_confort date then
      logger LogConfort ;;
      st <- get status ;;
      if eq_str st "ON" then
        hot <- eval (gt temperature (NFloat (float_add consigne hyst))) ;;
        when hot (logger LogHotEnough ;; poweroff)
      else
        cold <- eval (lt temperature (NFloat (float_sub consigne hyst))) ;;
        when cold (logger LogNotHotEnough ;; poweron)
    else
      poweroff
  else
    forced <- get forced_ts ;;
    minutes <- eval (time_left forced date) ;;
    st <- get status ;;
    logger (LogForced st minutes).

(** The three fields [on_message] reads from a sensor message: the parsed
    [message['Time']], [message['SI7021']['Temperature']] and
    [message['SI7021']['Humidity']]; [None] when the expression raises. *)
Definition field_date (message : json) : option datetime :=
  obind (getitem message "Time") strptime_value.
Definition field_temperature (message : json) : option json :=
  obind (getitem message "SI7021") (fun si => getitem si "Temperature").
Definition field_humidity (message : json) : option json :=
  obind (getitem message "SI7021") (fun si => getitem si "Humidity").

(** Lines 107-159: a message on the sensor topic. *)
Definition on_sensor (env : environ) (message : json) : M unit :=
  date <- try_assign (field_date message) (logger LogErrTimestamp) ;;
  temperature <- try_assign (field_temperature message) (logger LogErrTemperature) ;;
  humidity <- try_assign (field_humidity message) (logger LogErrHumidity) ;;
  (* if temperature and humidity and date: the operands are read from the
     left and the first false one decides; a datetime is always true *)
  t <- load temperature ;;
  when (truthy t)
    (h <- load humidity ;;
     when (truthy h)
       (d <- load date ;;
        logger (LogState (mk_reading d t h)) ;;
        q <- get queue ;;
        put (set_queue (deque_append q (mk_reading d t h))) ;;
        q' <- get queue ;;
        save_states env q' ;;
        control d t)).

(** Lines 162-175: a message on the result topic. *)
Definition on_result (env : environ) (message : json) : M unit :=
  has_power <- eval (contains "POWER" message) ;;
  when has_power
    (sent <- get command_sent ;;
     if sent then
       put (set_command_sent false) ;;
       p <- eval (getitem message "POWER") ;;
       put (set_status p) ;;
       st <- get status ;;
       logger (LogHeaterIs st)
     else
       p <- eval (getitem message "POWER") ;;
       put (set_status p) ;;
       put (set_forced_ts (NFloat (time_time env))) ;;
       st <- get status ;;
       logger (LogHeaterForced st)).

(** [on_message()] *)
Definition on_message (env : environ) (msg : mqtt_msg) : M unit :=
  try_except
    (message <- eval (payload msg) ;;
     logger (LogMessage (topic msg) message) ;;
     when (topic msg =? SENSOR)%string (on_sensor env message) ;;
     when (topic msg =? RESULT)%string (on_result env message))
    (logger LogErrOccured).

(** What the network loop delivers to the client, one at a time. *)
Inductive event : Type :=
| Connected
| Message (env : environ) (msg : mqtt_msg).

Definition handle (ev : event) : M unit :=
  match ev with
  | Connected => on_connect
  | Message env msg => on_message env msg
  end.

(** The attributes and the effects after a run of events. *)
Fixpoint serve (evs : list event) (s : MqttClient) : MqttClient * list effect :=
  match evs with
  | [] => (s, [])
  | ev :: rest =>
      let '(_, s1, t1) := handle ev s in
      let '(s2, t2) := serve rest s1 in
      (s2, t1 ++ t2)
  end.

End Callbacks.

(** The attributes after a callback, and what it published and logged. *)
Definition state_of {A} (r : option A * MqttClient * list effect) : MqttClient :=
  snd (fst r).
Definition result_of {A} (r : option A * MqttClient * list effect) : option A :=
  fst (fst r).
Definition effects_of {A} (r : option A * MqttClient * list effect) : list effect :=
  snd r.

Fixpoint published (t : list effect) : list (string * string) :=
  match t with
  | [] => []
  | Publish tp p :: rest => (tp, p) :: published rest
  | _ :: rest => published rest
  end.

Fixpoint logged (t : list effect) : list log_record :=
  match t with
  | [] => []
  | Log r :: rest => r :: logged rest
  | _ :: rest => logged rest
  end.

Fixpoint saved (t : list effect) : list deque :=
  match t with
  | [] => []
  | SaveStates q :: rest => q :: saved rest
  | _ :: rest => saved rest
  end.

(** ** A concrete machine: zero-padded dates, clock on UTC

    The theorems below hold for every [strptime] and [timestamp].  The
    examples run the callbacks on a machine whose time zone is UTC and
    whose sensor sends the zero-padded form [YYYY-MM-DDTHH:MM:SS]. *)

Module Utc.

Definition digit (c : ascii) : option Z :=
  let n := Z.of_N (N_of_ascii c) in
  if (48 <=? n) && (n <=? 57) then Some (n - 48) else None.

(** The number written by the [n] digits at the head of [s], and the rest. *)
Fixpoint digits (n : nat) (acc : Z) (s : string) : option (Z * string) :=
  match n with
  | O => Some (acc, s)
  | S n' =>
      match s with
      | String c s' => obind (digit c) (fun d => digits n' (10 * acc + d) s')
      | EmptyString => None
      end
  end.

Definition sep (c : ascii) (s : string) : option string :=
  match s with
  | String c' s' => if Ascii.eqb c c' then Some s' else None
  | EmptyString => None
  end.

Definition is_leap (y : Z) : bool :=
  ((y mod 4 =? 0) && negb (y mod 100 =? 0)) || (y mod 400 =? 0).

Definition days_in_month (y m : Z) : Z :=
  if m =? 2 then (if is_leap y then 29 else 28)
  else if (m =? 4) || (m =? 6) || (m =? 9) || (m =? 11) then 30
  else 31.

Definition strptime (s : string) : option datetime :=
  obind (digits 4 0 s) (fun '(y, s) =>
  obind (sep "-" s) (fun s =>
  obind (digits 2 0 s) (fun '(mo, s) =>
  obind (sep "-" s) (fun s =>
  obind (digits 2 0 s) (fun '(d, s) =>
  obind (sep "T" s) (fun s =>
  obind (digits 2 0 s) (fun '(h, s) =>
  obind (sep ":" s) (fun s =>
  obind (digits 2 0 s) (fun '(mi, s) =>
  obind (sep ":" s) (fun s =>
  obind (digits 2 0 s) (fun '(sec, s) =>
  match s with
  | EmptyString =>
      if (1 <=? y) && (1 <=? mo) && (mo <=? 12) && (1 <=? d)
         && (d <=? days_in_month y mo) && (h <? 24) && (mi <? 60) && (sec <? 60)
      then Some (mk_datetime y mo d h mi sec)
      else None
  | _ => None
  end))))))))))).

(** Days from 1970-01-01 to the given civil date. *)
Definition days_from_civil (y m d : Z) : Z :=
  let y' := if m <=? 2 then y - 1 else y in
  let era := y' / 400 in
  let yoe := y' - era * 400 in
  let doy := (153 * (if m >? 2 then m - 3 else m + 9) + 2) / 5 + d - 1 in
  let doe := yoe * 365 + yoe / 4 - yoe / 100 + doy in
  era * 146097 + doe - 719468.

Definition seconds (date : datetime) : Z :=
  days_from_civil (year date) (month date) (day date) * 86400
  + hour date * 3600 + minute date * 60 + second date.

Definition timestamp (date : datetime) : pyfloat := float_of_Z (seconds date).

Definition on_message := on_message strptime timestamp.
Definition serve := serve strptime timestamp.
Definition automatic := automatic timestamp.

(** A sensor message as the device sends it, decoded, and on its topic. *)
Definition sensor (time : string) (temperature humidity : json) : json :=
  JObj [("Time", JStr time);
        ("SI7021", JObj [("Temperature", temperature); ("Humidity", humidity)]);
        ("TempUnit", JStr "C")].

Definition tele (time : string) (temperature humidity : json) : mqtt_msg :=
  mk_msg SENSOR (Some (sensor time temperature humidity)).

(** A result message reporting the power state. *)
Definition stat (power : string) : mqtt_msg :=
  mk_msg RESULT (Some (JObj [("POWER", JStr power)])).

Definition env (now : Z) : environ := mk_environ (float_of_Z now) true.

(** A temperature given in tenths of a degree, as the decoder reads the
    decimal literal: [degrees 215] is the float [21.5]. *)
Definition degrees (tenths : Z) : json :=
  JFloat (float_div (float_of_Z tenths) (float_of_Z 10)).

(** A client with an empty queue, the given status and flags. *)
Definition heater (st : string) (sent : bool) (forced : pynum) : MqttClient :=
  mk_client (read_states None) (JStr st) sent forced.

(** 2023-11-15T06:00:00 UTC, in seconds since the epoch. *)
Definition six_o_clock : Z := 1700028000.

(** That day at the given time. *)
Definition at_time (h mi sec : Z) : datetime := mk_datetime 2023 11 15 h mi sec.

End Utc.

(** ** Notions used by the statements *)

(** The two thresholds the decision compares the temperature with:
    [consigne + hyst] is the float [22.0] and [consigne - hyst] is the
    float nearest to [21.6]. *)
Definition upper : pynum := NFloat (float_add consigne hyst).
Definition lower : pynum := NFloat (float_sub consigne hyst).

(** The queue after appending the readings [rs] one by one. *)
Definition appends (rs : list reading) (q : deque) : deque :=
  fold_left deque_append rs q.

(** The last [n] elements of a list. *)
Definition lastn (n : nat) (l : list reading) : list reading :=
  skipn (List.length l - n) l.

(** A reading numbered [n], to tell the entries of a queue apart. *)
Definition sample (n : nat) : reading :=
  mk_reading (mk_datetime 2023 11 15 6 0 (Z.of_nat n)) (JInt 21) (JInt 40).

(** A value that [json.loads] decoded from [0], [0.0] or [-0.0]. *)
Definition is_zero_value (v : json) : bool :=
  match v with
  | JInt z => z =? 0
  | JFloat (S754_zero _) => true
  | _ => false
  end.

(** The records logged at level [error]. *)
Definition is_error (r : log_record) : bool :=
  match r with
  | LogErrTimestamp | LogErrTemperature | LogErrHumidity | LogErrOccured => true
  | _ => false
  end.

(** A power result: a message on the result topic that passes the test
    ['POWER' in message] of line 164. *)
Definition power_result (msg : mqtt_msg) : bool :=
  (topic msg =? RESULT)%string &&
  match payload msg with
  | Some message =>
      match contains "POWER" message with
      | Some true => true
      | _ => false
      end
  | None => false
  end.

Definition not_power_result (ev : event) : bool :=
  match ev with
  | Connected => true
  | Message _ msg => negb (power_result msg)
  end.

(** A sensor message that does not pass the guard of line 129, because a
    field is unbound or because the temperature or the humidity is false. *)
Definition fails_guard (strptime : string -> option datetime) (message : json) : Prop :=
  match field_temperature message with
  | None => True
  | Some t =>
      truthy t = false \/
      match field_humidity message with
      | None => True
      | Some h => truthy h = false \/ field_date strptime message = None
      end
  end.

(** The override test as the specification words it: a forced change was
    seen and less than one hour ([now - last_forced_at < 3600]) has passed. *)
Definition overridden_within_hour (forced now : pynum) : bool :=
  negb (is_zero forced) && num_lt (num_sub now forced) (NInt 3600).

(** The reading a sensor message puts in the queue: the one built at line
    131 when the three fields are bound and the guard of line 129 holds,
    none otherwise.  The operands are looked at in the order of the guard. *)
Definition accepted_message (strptime : string -> option datetime)
    (message : json) : option reading :=
  match field_temperature message with
  | Some t =>
      if truthy t then
        match field_humidity message with
        | Some h =>
            if truthy h then
              match field_date strptime message with
              | Some d => Some (mk_reading d t h)
              | None => None
              end
            else None
        | None => None
        end
      else None
  | None => None
  end.

Definition accepted (strptime : string -> option datetime) (ev : event) : option reading :=
  match ev with
  | Connected => None
  | Message _ msg =>
      if (topic msg =? SENSOR)%string then
        match payload msg with
        | Some message => accepted_message strptime message
        | None => None
        end
      else None
  end.

(** The readings a run of events puts in the queue, oldest first. *)
Fixpoint accepted_readings (strptime : string -> option datetime)
    (evs : list event) : list reading :=
  match evs with
  | [] => []
  | ev :: rest =>
      match accepted strptime ev with
      | Some r => r :: accepted_readings strptime rest
      | None => accepted_readings strptime rest
      end
  end.

(** Whether the queue file can be written while the event is handled. *)
Definition event_can_save (ev : event) : bool :=
  match ev with
  | Connected => true
  | Message env _ => can_save env
  end.

(** The content of the queue file after the effects [t], when it held
    [file] before ([None]: no file): the last deque that was dumped. *)
Fixpoint file_after (t : list effect) (file : option deque) : option deque :=
  match t with
  | [] => file
  | SaveStates q :: rest => file_after rest (Some q)
  | _ :: rest => file_after rest file
  end.

(** The topics the client subscribed to, in order. *)
Fixpoint subscribed (t : list effect) : list string :=
  match t with
  | [] => []
  | Subscribe tp :: rest => tp :: subscribed rest
  | _ :: rest => subscribed rest
  end.

(** ** The constants *)

(** The literals are the correctly rounded quotients [218/10] and [2/10]. *)
Example consigne_literal :
  consigne = float_div (float_of_Z 218) (float_of_Z 10) /\
  hyst = float_div (float_of_Z 2) (float_of_Z 10).
Proof. split; vm_compute; reflexivity. Qed.

(** [consigne + hyst] is exactly [22.0]; [consigne - hyst] is the float
    nearest to [21.6], the one the literal [21.6] denotes. *)
Example thresholds :
  upper = NFloat (float_of_Z 22) /\
  lower = NFloat (float_div (float_of_Z 216) (float_of_Z 10)).
Proof. split; vm_compute; reflexivity. Qed.

(** ** The comfort schedule *)

(** C8. [is_confort] looks at the hour of the date only, whatever the
    other components are, and is true exactly at the hours 6, 7, 19 and 20;
    in particular it is false at the hours 8, 21 and 0. *)
Theorem is_confort_hours (y mo d h mi s : Z) :
  is_confort (mk_datetime y mo d h mi s)
  = ((h =? 6) || (h =? 7) || (h =? 19) || (h =? 20)) /\
  is_confort (mk_datetime y mo d 8 mi s) = false /\
  is_confort (mk_datetime y mo d 21 mi s) = false /\
  is_confort (mk_datetime y mo d 0 mi s) = false.
Proof.
  split; [ | repeat split ].
  unfold is_confort; cbn [hour].
  destruct (h >=? 6) eqn:H6, (h <? 8) eqn:H8,
           (h >=? 19) eqn:H19, (h <? 21) eqn:H21; cbn [andb];
    destruct (h =? 6) eqn:E6, (h =? 7) eqn:E7,
             (h =? 19) eqn:E19, (h =? 20) eqn:E20; cbn [orb];
    try reflexivity; exfalso; lia.
Qed.

(** ** The bounded queue *)

Section Deque.

Variable n : nat.

Lemma lastn_length (l : list reading) : (List.length (lastn n l) <= n)%nat.
Proof. unfold lastn. rewrite length_skipn. lia. Qed.

Lemma lastn_app (l rs : list reading) : lastn n (lastn n l ++ rs) = lastn n (l ++ rs).
Proof.
  unfold lastn.
  assert (E : skipn (List.length l - n) l ++ rs
              = skipn (List.length l - n) (l ++ rs)).
  { rewrite skipn_app.
    replace (List.length l - n - List.length l)%nat with 0%nat by lia.
    reflexivity. }
  rewrite E, skipn_skipn, length_skipn, length_app.
  f_equal. lia.
Qed.

(** One [append] keeps the last [n] of the old items and the new one. *)
Lemma deque_append_items (q : deque) (x : reading) :
  maxlen q = Some n -> (List.length (items q) <= n)%nat ->
  items (deque_append q x) = lastn n (items q ++ [x]) /\
  maxlen (deque_append q x) = Some n.
Proof.
  intros Hm Hl. unfold deque_append, lastn. rewrite Hm.
  rewrite length_app. cbn [List.length].
  destruct (n <? List.length (items q) + 1)%nat eqn:E; cbn [items maxlen].
  - apply Nat.ltb_lt in E.
    replace (List.length (items q) + 1 - n)%nat with 1%nat by lia.
    split; [ | reflexivity ].
    destruct (items q ++ [x]); reflexivity.
  - apply Nat.ltb_ge in E.
    replace (List.length (items q) + 1 - n)%nat with 0%nat by lia.
    split; reflexivity.
Qed.

Lemma appends_items (rs : list reading) :
  forall q, maxlen q = Some n -> (List.length (items q) <= n)%nat ->
  items (appends rs q) = lastn n (items q ++ rs) /\
  maxlen (appends rs q) = Some n.
Proof.
  induction rs as [ | x rs IH ]; intros q Hm Hl; cbn [appends fold_left].
  - rewrite app_nil_r. split; [ | assumption ].
    unfold lastn. replace (List.length (items q) - n)%nat with 0%nat by lia.
    reflexivity.
  - destruct (deque_append_items q x Hm Hl) as [Hi Hm'].
    destruct (IH (deque_append q x) Hm') as [IHi IHm].
    + rewrite Hi. apply lastn_length.
    + split; [ | exact IHm ].
      unfold appends in IHi. rewrite IHi, Hi, lastn_app, <- app_assoc.
      reflexivity.
Qed.

End Deque.

(** C6. From the empty queue of [read_states], after any sequence of
    appends the queue holds at most 100 readings, and they are the last 100
    appended, in the order they came in: each append past the capacity
    drops the oldest entry.  After 150 appends the queue is the last 100 of
    them. *)
Theorem queue_keeps_last_100 (rs : list reading) :
  let q := appends rs (read_states None) in
  (List.length (items q) <= 100)%nat /\
  items q = skipn (List.length rs - 100) rs /\
  (forall x, items (deque_append q x)
             = if (List.length (items q) <? 100)%nat then items q ++ [x]
               else tl (items q) ++ [x]) /\
  (List.length rs = 150%nat -> items q = skipn 50 rs).
Proof.
  intro q.
  destruct (appends_items 100 rs (read_states None) eq_refl) as [Hi Hm];
    [ cbn; lia | ].
  fold q in Hi, Hm. cbn [read_states items app] in Hi. unfold lastn in Hi.
  assert (Hl : (List.length (items q) <= 100)%nat).
  { rewrite Hi, length_skipn. lia. }
  repeat split.
  - exact Hl.
  - exact Hi.
  - intro x. unfold deque_append. rewrite Hm, length_app. cbn [List.length].
    destruct (List.length (items q) <? 100)%nat eqn:E.
    + apply Nat.ltb_lt in E.
      destruct (100 <? List.length (items q) + 1)%nat eqn:E'; [ | reflexivity ].
      apply Nat.ltb_lt in E'. lia.
    + apply Nat.ltb_ge in E.
      destruct (100 <? List.length (items q) + 1)%nat eqn:E'.
      * cbn [items]. destruct (items q); [ cbn in E; lia | reflexivity ].
      * apply Nat.ltb_ge in E'. lia.
  - intro H150. rewrite Hi, H150. reflexivity.
Qed.

Lemma queue_keeps_last_100_witness :
  let rs := map sample (seq 0 150) in
  List.length rs = 150%nat /\
  items (appends rs (read_states None)) = map sample (seq 50 100).
Proof.
  split; [ reflexivity | ].
  rewrite (proj2 (proj2 (proj2 (queue_keeps_last_100 (map sample (seq 0 150))))) eq_refl).
  reflexivity.
Defined.

(** ** Comparisons of Python numbers *)

Lemma SFcompare_antisym (f g : pyfloat) :
  SFcompare g f = option_map CompOpp (SFcompare f g).
Proof.
  destruct f as [ sf | sf | | sf mf ef ], g as [ sg | sg | | sg mg eg ];
    cbn [SFcompare option_map];
    try reflexivity;
    try (destruct sf; reflexivity);
    try (destruct sg; reflexivity);
    try (destruct sf, sg; reflexivity).
  assert (Hm : Pos.compare_cont Eq mg mf = CompOpp (Pos.compare_cont Eq mf mg)).
  { symmetry. apply (Pos.compare_cont_antisym mf mg Eq). }
  destruct sf, sg; cbn [CompOpp]; try reflexivity;
    rewrite (Z.compare_antisym ef eg), Hm;
    destruct (ef ?= eg); cbn [CompOpp]; try reflexivity;
    destruct (Pos.compare_cont Eq mf mg); reflexivity.
Qed.

Lemma num_compare_antisym (a b : pynum) :
  num_compare b a = option_map CompOpp (num_compare a b).
Proof.
  destruct a as [ x | f ]; destruct b as [ y | g ]; cbn [num_compare option_map].
  - rewrite (Z.compare_antisym x y). reflexivity.
  - reflexivity.
  - destruct (Zcompare_SF y f) as [ [ | | ] | ]; reflexivity.
  - apply SFcompare_antisym.
Qed.

(** [a <= b] excludes [a > b] and [b < a]. *)
Lemma num_le_not_gt (a b : pynum) : num_le a b = true -> num_gt a b = false.
Proof.
  unfold num_le, num_gt. destruct (num_compare a b) as [ [ | | ] | ];
    intro H; try reflexivity; discriminate H.
Qed.

Lemma num_le_not_lt (a b : pynum) : num_le a b = true -> num_lt b a = false.
Proof.
  unfold num_le, num_lt. rewrite (num_compare_antisym a b).
  destruct (num_compare a b) as [ [ | | ] | ];
    intro H; try reflexivity; discriminate H.
Qed.

(** ** Running the callbacks *)

Ltac mrun :=
  cbv beta iota zeta delta
      [on_message on_sensor on_result control poweron poweroff on_connect
       save_states try_assign try_except bind ret raise eval load when get put
       emit logger topic payload].

Ltac mrun_handler :=
  cbv beta iota zeta delta
      [on_message on_sensor on_result
       save_states try_assign try_except bind ret raise eval load when get put
       emit logger topic payload].

Ltac on_sensor_topic :=
  mrun_handler;
  change (SENSOR =? SENSOR)%string with true;
  change (SENSOR =? RESULT)%string with false;
  cbv iota.

Ltac on_result_topic :=
  mrun_handler;
  change (RESULT =? SENSOR)%string with false;
  change (RESULT =? RESULT)%string with true;
  cbv iota.

Section Behaviour.

Variable strptime : string -> option datetime.
Variable timestamp : datetime -> pyfloat.

(** The decision, branch by branch. *)
Lemma control_run (d : datetime) (t : json) (s : MqttClient) :
  control timestamp d t s =
  if automatic timestamp (forced_ts s) d then
    if is_confort d then
      if eq_str (status s) "ON" then
        match gt t upper with
        | Some true =>
            (Some tt, set_command_sent true s,
             [Log LogAutomatic; Log LogConfort; Log LogHotEnough;
              Log LogPowerOff; Publish POWER "OFF"])
        | Some false => (Some tt, s, [Log LogAutomatic; Log LogConfort])
        | None => (None, s, [Log LogAutomatic; Log LogConfort])
        end
      else
        match lt t lower with
        | Some true =>
            (Some tt, set_command_sent true s,
             [Log LogAutomatic; Log LogConfort; Log LogNotHotEnough;
              Log LogPowerOn; Publish POWER "ON"])
        | Some false => (Some tt, s, [Log LogAutomatic; Log LogConfort])
        | None => (None, s, [Log LogAutomatic; Log LogConfort])
        end
    else
      (Some tt, set_command_sent true s,
       [Log LogAutomatic; Log LogPowerOff; Publish POWER "OFF"])
  else
    match time_left timestamp (forced_ts s) d with
    | Some n => (Some tt, s, [Log (LogForced (status s) n)])
    | None => (None, s, [])
    end.
Proof.
  mrun. fold upper lower.
  destruct (automatic timestamp (forced_ts s) d).
  - destruct (is_confort d).
    + destruct (eq_str (status s) "ON").
      * destruct (gt t upper) as [ [ | ] | ]; reflexivity.
      * destruct (lt t lower) as [ [ | ] | ]; reflexivity.
    + reflexivity.
  - destruct (time_left timestamp (forced_ts s) d); reflexivity.
Qed.

(** A sensor message with its three fields, true temperature and humidity
    and a writable file: the reading is logged, queued and saved, then the
    decision runs; an exception of the decision is caught and logged. *)
Lemma on_message_reading env message s d t h :
  field_date strptime message = Some d ->
  field_temperature message = Some t ->
  field_humidity message = Some h ->
  truthy t = true -> truthy h = true -> can_save env = true ->
  on_message strptime timestamp env (mk_msg SENSOR (Some message)) s =
  let r := mk_reading d t h in
  let s1 := set_queue (deque_append (queue s) r) s in
  let pre := [Log (LogMessage SENSOR message); Log (LogState r);
              SaveStates (queue s1)] in
  match control timestamp d t s1 with
  | (Some _, s2, tr) => (Some tt, s2, pre ++ tr)
  | (None, s2, tr) => (Some tt, s2, pre ++ tr ++ [Log LogErrOccured])
  end.
Proof.
  intros Hd Ht Hh Tt Th Hs.
  on_sensor_topic.
  rewrite Hd, Ht, Hh. cbv iota beta.
  rewrite Tt. cbv iota beta.
  rewrite Th, Hs. cbv iota beta.
  destruct (control timestamp d t _) as [ [ [ [] | ] s2 ] tr ]; cbn [app];
    rewrite ?app_nil_r; reflexivity.
Qed.

(** The same message when the file cannot be written: the reading is in the
    queue of [self], nothing else happened. *)
Lemma on_message_unsaved env message s d t h :
  field_date strptime message = Some d ->
  field_temperature message = Some t ->
  field_humidity message = Some h ->
  truthy t = true -> truthy h = true -> can_save env = false ->
  on_message strptime timestamp env (mk_msg SENSOR (Some message)) s =
  (Some tt, set_queue (deque_append (queue s) (mk_reading d t h)) s,
   [Log (LogMessage SENSOR message); Log (LogState (mk_reading d t h));
    Log LogErrOccured]).
Proof.
  intros Hd Ht Hh Tt Th Hs.
  on_sensor_topic.
  rewrite Hd, Ht, Hh. cbv iota beta.
  rewrite Tt. cbv iota beta.
  rewrite Th, Hs. reflexivity.
Qed.

Lemma on_message_discarded env message s :
  fails_guard strptime message ->
  let r := on_message strptime timestamp env (mk_msg SENSOR (Some message)) s in
  result_of r = Some tt /\ state_of r = s /\
  published (effects_of r) = [] /\ saved (effects_of r) = [].
Proof.
  unfold fails_guard. intros H.
  on_sensor_topic.
  destruct (field_date strptime message) as [ d | ];
  destruct (field_temperature message) as [ t | ];
  try destruct (truthy t) eqn:Tt;
  destruct (field_humidity message) as [ h | ];
  try destruct (truthy h) eqn:Th; cbv beta iota;
  try (repeat split; reflexivity).
  all: exfalso; intuition congruence.
Qed.

(** Every sensor message is of one of the three kinds. *)
Lemma sensor_message_kinds (message : json) :
  fails_guard strptime message \/
  exists d t h,
    field_date strptime message = Some d /\
    field_temperature message = Some t /\
    field_humidity message = Some h /\
    truthy t = true /\ truthy h = true.
Proof.
  unfold fails_guard.
  destruct (field_temperature message) as [ t | ]; [ | left; exact I ].
  destruct (truthy t) eqn:Tt; [ | left; left; reflexivity ].
  destruct (field_humidity message) as [ h | ]; [ | left; right; exact I ].
  destruct (truthy h) eqn:Th; [ | left; right; left; reflexivity ].
  destruct (field_date strptime message) as [ d | ];
    [ | left; right; right; reflexivity ].
  right. exists d, t, h. repeat split; assumption.
Qed.

(** A message that is neither on the sensor topic nor a power result (the
    payload is not JSON, the topic is another one, or the result has no
    ['POWER']) changes nothing. *)
Lemma on_message_ignored env msg s :
  (topic msg =? SENSOR)%string = false -> power_result msg = false ->
  let r := on_message strptime timestamp env msg s in
  result_of r = Some tt /\ state_of r = s /\
  published (effects_of r) = [] /\ saved (effects_of r) = [].
Proof.
  destruct msg as [ tp [ message | ] ]; unfold power_result; cbn [topic payload];
    intros Hs Hp; mrun_handler; [ | repeat split; reflexivity ].
  rewrite Hs. cbv iota beta.
  destruct (tp =? RESULT)%string; cbn [andb] in Hp; cbv iota beta;
    [ | repeat split; reflexivity ].
  destruct (contains "POWER" message) as [ [ | ] | ];
    [ discriminate Hp | | ]; repeat split; reflexivity.
Qed.

(** A power result whose message is a dict: the status is the reported one;
    the pending command is acknowledged, or else the change is forced. *)
Lemma on_message_power env message p s :
  getitem message "POWER" = Some p ->
  on_message strptime timestamp env (mk_msg RESULT (Some message)) s =
  if command_sent s then
    (Some tt, set_status p (set_command_sent false s),
     [Log (LogMessage RESULT message); Log (LogHeaterIs p)])
  else
    (Some tt, set_forced_ts (NFloat (time_time env)) (set_status p s),
     [Log (LogMessage RESULT message); Log (LogHeaterForced p)]).
Proof.
  intros Hp.
  destruct message; cbn [getitem] in Hp; try discriminate Hp.
  on_result_topic. cbn [contains getitem]. rewrite Hp. cbv iota beta.
  destruct (command_sent s); reflexivity.
Qed.

(** Any power result that comes while a command is pending leaves
    [forced_ts] alone and clears the flag. *)
Lemma on_message_acknowledged env msg s :
  power_result msg = true -> command_sent s = true ->
  let r := on_message strptime timestamp env msg s in
  forced_ts (state_of r) = forced_ts s /\ command_sent (state_of r) = false.
Proof.
  destruct msg as [ tp [ message | ] ]; unfold power_result; cbn [topic payload];
    intros Hp Hc.
  - apply andb_prop in Hp. destruct Hp as [Ht Hp].
    apply String.eqb_eq in Ht. subst tp.
    on_result_topic.
    destruct (contains "POWER" message) as [ [ | ] | ]; try discriminate Hp.
    cbv iota beta. rewrite Hc.
    destruct (getitem message "POWER"); split; reflexivity.
  - rewrite andb_false_r in Hp. discriminate Hp.
Qed.

(** What a sensor message can do to [self]: nothing, or queue a reading
    and possibly mark a command as sent. *)
Lemma on_message_sensor_state env message s :
  let s' := state_of (on_message strptime timestamp env (mk_msg SENSOR (Some message)) s) in
  status s' = status s /\ forced_ts s' = forced_ts s /\
  (command_sent s' = command_sent s \/ command_sent s' = true).
Proof.
  destruct (sensor_message_kinds message) as [ Hf | (d & t & h & Hd & Ht & Hh & Tt & Th) ].
  - destruct (on_message_discarded env message s Hf) as (_ & Hs & _).
    cbv zeta in Hs |- *. rewrite Hs. auto.
  - destruct (can_save env) eqn:Hsave.
    + rewrite (on_message_reading env message s d t h Hd Ht Hh Tt Th Hsave).
      cbv zeta. rewrite control_run.
      destruct (automatic _ _ _); [ destruct (is_confort d);
        [ destruct (eq_str _ _);
          [ destruct (gt t upper) as [ [ | ] | ]
          | destruct (lt t lower) as [ [ | ] | ] ] | ]
        | destruct (time_left _ _ _) ];
        cbn; auto.
    + rewrite (on_message_unsaved env message s d t h Hd Ht Hh Tt Th Hsave).
      cbn. auto.
Qed.

(** Only a reading that went through the decision can publish. *)
Lemma on_message_published env msg s :
  published (effects_of (on_message strptime timestamp env msg s)) = [] \/
  exists message d t h,
    msg = mk_msg SENSOR (Some message) /\
    field_date strptime message = Some d /\
    field_temperature message = Some t /\
    field_humidity message = Some h /\
    truthy t = true /\ truthy h = true /\ can_save env = true.
Proof.
  destruct (topic msg =? SENSOR)%string eqn:Ht.
  - apply String.eqb_eq in Ht. destruct msg as [ tp [ message | ] ];
      cbn [topic] in Ht; subst tp; [ | left; reflexivity ].
    destruct (sensor_message_kinds message) as [ Hf | (d & t & h & Hd & Htm & Hh & Tt & Th) ].
    + left. apply (on_message_discarded env message s Hf).
    + destruct (can_save env) eqn:Hsave.
      * right. exists message, d, t, h. repeat split; assumption.
      * left. rewrite (on_message_unsaved env message s d t h Hd Htm Hh Tt Th Hsave).
        reflexivity.
  - left. destruct (power_result msg) eqn:Hp.
    + destruct msg as [ tp [ message | ] ]; unfold power_result in Hp;
        cbn [topic payload] in Hp, Ht.
      * apply andb_prop in Hp. destruct Hp as [Hr Hp].
        apply String.eqb_eq in Hr. subst tp.
        on_result_topic.
        destruct (contains "POWER" message) as [ [ | ] | ]; try discriminate Hp.
        cbv iota beta.
        destruct (command_sent s), (getitem message "POWER"); reflexivity.
      * rewrite andb_false_r in Hp. discriminate Hp.
    + apply (on_message_ignored env msg s Ht Hp).
Qed.

(** ** The decision on a reading *)

(** C1. A reading handled in automatic mode during a comfort period: when
    the status is ON and the temperature is above [consigne + hyst] the
    callback publishes OFF; when the status is not ON and the temperature is
    below [consigne - hyst] it publishes ON; and when the temperature lies
    in the band between the two thresholds it publishes nothing, whatever
    the status. *)
Theorem hysteresis_in_comfort env message s d t h x :
  field_date strptime message = Some d ->
  field_temperature message = Some t ->
  field_humidity message = Some h ->
  truthy t = true -> truthy h = true -> can_save env = true ->
  automatic timestamp (forced_ts s) d = true ->
  is_confort d = true ->
  as_number t = Some x ->
  let r := on_message strptime timestamp env (mk_msg SENSOR (Some message)) s in
  (eq_str (status s) "ON" = true -> num_gt x upper = true ->
   published (effects_of r) = [(POWER, "OFF")]) /\
  (eq_str (status s) "ON" = false -> num_lt x lower = true ->
   published (effects_of r) = [(POWER, "ON")]) /\
  (num_le lower x = true -> num_le x upper = true ->
   published (effects_of r) = []).
Proof.
  intros Hd Ht Hh Tt Th Hsave Ha Hc Hx r. subst r.
  rewrite (on_message_reading env message s d t h Hd Ht Hh Tt Th Hsave).
  cbv zeta. rewrite control_run.
  cbn [forced_ts status set_queue]. rewrite Ha, Hc.
  unfold gt, lt. rewrite Hx. cbn [option_map].
  repeat split.
  - intros Hon Hgt. rewrite Hon, Hgt. reflexivity.
  - intros Hoff Hlt. rewrite Hoff, Hlt. reflexivity.
  - intros Hlo Hhi.
    rewrite (num_le_not_gt _ _ Hhi), (num_le_not_lt _ _ Hlo).
    destruct (eq_str (status s) "ON"); reflexivity.
Qed.

(** C4. A reading handled in automatic mode outside the comfort periods
    makes the callback publish OFF, for every temperature (a number or
    not) and every status; the temperature is not even compared. *)
Theorem off_outside_comfort env message s d t h :
  field_date strptime message = Some d ->
  field_temperature message = Some t ->
  field_humidity message = Some h ->
  truthy t = true -> truthy h = true -> can_save env = true ->
  automatic timestamp (forced_ts s) d = true ->
  is_confort d = false ->
  let r := on_message strptime timestamp env (mk_msg SENSOR (Some message)) s in
  published (effects_of r) = [(POWER, "OFF")] /\
  command_sent (state_of r) = true /\
  logged (effects_of r)
  = [LogMessage SENSOR message; LogState (mk_reading d t h);
     LogAutomatic; LogPowerOff].
Proof.
  intros Hd Ht Hh Tt Th Hsave Ha Hc r. subst r.
  rewrite (on_message_reading env message s d t h Hd Ht Hh Tt Th Hsave).
  cbv zeta. rewrite control_run.
  cbn [forced_ts status set_queue]. rewrite Ha, Hc.
  repeat split.
Qed.

(** C2, as the code has it. A reading is handled as overridden exactly when
    the test [forced_ts < timestamp(date) - 3600] of line 135 fails, that
    is until 3600 seconds have passed since the forced change, the 3600th
    included.  Then nothing is published, the status and the flags keep
    their values, no automatic decision is logged, and the record logged
    carries [round((3600 - (timestamp(date) - forced_ts)) / 60)].  When the
    test holds the reading is handled in automatic mode. *)
Theorem override_window env message s d t h :
  field_date strptime message = Some d ->
  field_temperature message = Some t ->
  field_humidity message = Some h ->
  truthy t = true -> truthy h = true -> can_save env = true ->
  let r := on_message strptime timestamp env (mk_msg SENSOR (Some message)) s in
  (automatic timestamp (forced_ts s) d = false ->
   published (effects_of r) = [] /\
   status (state_of r) = status s /\
   command_sent (state_of r) = command_sent s /\
   forced_ts (state_of r) = forced_ts s /\
   ~ In LogAutomatic (logged (effects_of r)) /\
   forall n, time_left timestamp (forced_ts s) d = Some n ->
     logged (effects_of r)
     = [LogMessage SENSOR message; LogState (mk_reading d t h);
        LogForced (status s) n]) /\
  (automatic timestamp (forced_ts s) d = true ->
   In LogAutomatic (logged (effects_of r))).
Proof.
  intros Hd Ht Hh Tt Th Hsave r. subst r.
  rewrite (on_message_reading env message s d t h Hd Ht Hh Tt Th Hsave).
  cbv zeta. rewrite control_run.
  cbn [forced_ts status set_queue].
  split; intros Ha; rewrite Ha.
  - destruct (time_left timestamp (forced_ts s) d) as [ n | ].
    + repeat split.
      * cbn. intros [ H | [ H | [ H | [] ] ] ]; discriminate H.
      * intros n' Hn. injection Hn as <-. reflexivity.
    + repeat split.
      * cbn. intros [ H | [ H | [ H | [] ] ] ]; discriminate H.
      * intros n' Hn. discriminate Hn.
  - destruct (is_confort d);
      [ destruct (eq_str (status s) "ON");
        [ destruct (gt t upper) as [ [ | ] | ]
        | destruct (lt t lower) as [ [ | ] | ] ] | ];
      cbn; auto.
Qed.

(** C3. A power result reporting the state [p]: when a command was pending
    the flag is cleared, the status becomes [p] and [forced_ts] keeps its
    value; when none was pending the status becomes [p] and [forced_ts]
    becomes the current time. *)
Theorem power_result_attribution env message p s :
  getitem message "POWER" = Some p ->
  let s' := state_of (on_message strptime timestamp env (mk_msg RESULT (Some message)) s) in
  (command_sent s = true ->
   command_sent s' = false /\ status s' = p /\ forced_ts s' = forced_ts s) /\
  (command_sent s = false ->
   status s' = p /\ forced_ts s' = NFloat (time_time env)).
Proof.
  intros Hp s'. subst s'.
  rewrite (on_message_power env message p s Hp).
  split; intros Hc; rewrite Hc; repeat split.
Qed.

(** C5, as the code has it. Whatever the message and the attributes: ON is
    published only when the status is not ON; OFF is published only when
    the status is ON or the reading is outside the comfort periods, where
    OFF is sent whatever the status.  At most one command is published. *)
Theorem commands_follow_status env msg s :
  let r := on_message strptime timestamp env msg s in
  (In (POWER, "ON") (published (effects_of r)) ->
   eq_str (status s) "ON" = false) /\
  (In (POWER, "OFF") (published (effects_of r)) ->
   eq_str (status s) "ON" = true \/
   exists message d,
     payload msg = Some message /\
     field_date strptime message = Some d /\ is_confort d = false) /\
  (List.length (published (effects_of r)) <= 1)%nat.
Proof.
  intros r. subst r.
  destruct (on_message_published env msg s)
    as [ Hn | (message & d & t & h & -> & Hd & Ht & Hh & Tt & Th & Hsave) ].
  - rewrite Hn. cbn. repeat split; try (intros []). lia.
  - rewrite (on_message_reading env message s d t h Hd Ht Hh Tt Th Hsave).
    cbv zeta. rewrite control_run.
    cbn [forced_ts status set_queue payload].
    destruct (automatic timestamp (forced_ts s) d);
      [ destruct (is_confort d) eqn:Hc;
        [ destruct (eq_str (status s) "ON") eqn:Hon;
          [ destruct (gt t upper) as [ [ | ] | ]
          | destruct (lt t lower) as [ [ | ] | ] ] | ]
      | destruct (time_left timestamp (forced_ts s) d) ];
      cbn; repeat split; try lia;
      try (intros [ H | [] ]; try discriminate H);
      try (intros []); auto.
    right. exists message, d. auto.
Qed.

(** C7, as the code has it. A sensor message whose payload is not JSON, or
    in which the timestamp, the temperature or the humidity is missing, or
    whose timestamp does not parse, is logged as an error and dropped: the
    callback returns, the queue and the other attributes are unchanged,
    nothing is saved and nothing is published. *)
Theorem malformed_telemetry_discarded env msg s :
  topic msg = SENSOR ->
  (payload msg = None \/
   exists message,
     payload msg = Some message /\
     (field_date strptime message = None \/
      field_temperature message = None \/
      field_humidity message = None)) ->
  let r := on_message strptime timestamp env msg s in
  result_of r = Some tt /\ state_of r = s /\
  published (effects_of r) = [] /\ saved (effects_of r) = [] /\
  existsb is_error (logged (effects_of r)) = true.
Proof.
  destruct msg as [ tp pl ]. cbn [topic payload]. intros -> Hbad.
  destruct Hbad as [ -> | (message & -> & Hbad) ].
  - repeat split.
  - on_sensor_topic.
    destruct (field_date strptime message) as [ d | ];
    destruct (field_temperature message) as [ t | ];
    try destruct (truthy t);
    destruct (field_humidity message) as [ h | ];
    try destruct (truthy h); cbv beta iota;
    try (repeat split; reflexivity).
    all: exfalso; intuition congruence.
Qed.

(** C10. A sensor message whose temperature or humidity was decoded as
    zero is dropped without a word: the attributes (the queue among them)
    are unchanged, nothing is saved, nothing is published, and apart from
    the record of the message itself the log has no entry but the error of
    an unparsable timestamp -- no reading, no override test, no decision. *)
Theorem zero_reading_dropped env message s t h :
  field_temperature message = Some t ->
  field_humidity message = Some h ->
  is_zero_value t = true \/ is_zero_value h = true ->
  let r := on_message strptime timestamp env (mk_msg SENSOR (Some message)) s in
  result_of r = Some tt /\ state_of r = s /\
  saved (effects_of r) = [] /\ published (effects_of r) = [] /\
  logged (effects_of r)
  = LogMessage SENSOR message
    :: match field_date strptime message with
       | Some _ => []
       | None => [LogErrTimestamp]
       end.
Proof.
  intros Ht Hh Hz.
  assert (Hf : truthy t = false \/ truthy h = false).
  { destruct Hz as [ Hz | Hz ]; [ left | right ].
    - destruct t as [ | | z | [ | | | ] | | | ]; try discriminate Hz.
      + cbn in Hz |- *. rewrite Hz. reflexivity.
      + reflexivity.
    - destruct h as [ | | z | [ | | | ] | | | ]; try discriminate Hz.
      + cbn in Hz |- *. rewrite Hz. reflexivity.
      + reflexivity. }
  on_sensor_topic. rewrite Ht, Hh. cbv beta iota.
  destruct (field_date strptime message) as [ d | ];
    destruct (truthy t); cbv beta iota;
    try (repeat split; reflexivity);
    destruct (truthy h); cbv beta iota;
    try (repeat split; reflexivity);
    exfalso; destruct Hf; discriminate.
Qed.

(** An event that is not a power result keeps a pending command pending
    and leaves [forced_ts] alone. *)
Lemma pending_kept (ev : event) (s : MqttClient) :
  not_power_result ev = true -> command_sent s = true ->
  let s' := state_of (handle strptime timestamp ev s) in
  command_sent s' = true /\ forced_ts s' = forced_ts s.
Proof.
  destruct ev as [ | env msg ]; cbn [not_power_result handle]; intros Hn Hc.
  - split; reflexivity.
  - apply negb_true_iff in Hn.
    destruct (topic msg =? SENSOR)%string eqn:Ht.
    + apply String.eqb_eq in Ht. destruct msg as [ tp [ message | ] ];
        cbn [topic] in Ht; subst tp.
      * destruct (on_message_sensor_state env message s) as (_ & Hf & Hs).
        cbv zeta in Hf, Hs |- *. split; [ | exact Hf ].
        destruct Hs as [ Hs | Hs ]; [ rewrite Hs; exact Hc | exact Hs ].
      * split; [ exact Hc | reflexivity ].
    + destruct (on_message_ignored env msg s Ht Hn) as (_ & Hs & _).
      cbv zeta in Hs |- *. rewrite Hs. split; [ exact Hc | reflexivity ].
Qed.

Lemma serve_pending (evs : list event) :
  forall s, forallb not_power_result evs = true -> command_sent s = true ->
  let s' := fst (serve strptime timestamp evs s) in
  command_sent s' = true /\ forced_ts s' = forced_ts s.
Proof.
  induction evs as [ | ev evs IH ]; intros s Hall Hc; cbn [serve].
  - split; [ exact Hc | reflexivity ].
  - cbn [forallb] in Hall. apply andb_prop in Hall. destruct Hall as [Hev Hall].
    destruct (pending_kept ev s Hev Hc) as [Hc1 Hf1].
    unfold state_of in Hc1, Hf1. cbv zeta in Hc1, Hf1.
    destruct (handle strptime timestamp ev s) as [ [ o s1 ] t1 ].
    cbn [fst snd] in Hc1, Hf1.
    destruct (IH s1 Hall Hc1) as [Hc2 Hf2]. cbv zeta in Hc2, Hf2.
    destruct (serve strptime timestamp evs s1) as [ s2 t2 ].
    cbn [fst] in Hc2, Hf2 |- *. split; [ exact Hc2 | congruence ].
Qed.

(** C9. After [__init__] and [on_connect], and whatever else comes in
    between, the first power result is taken as the answer to the
    controller's own request: [forced_ts] keeps its initial value [0], and
    when the message carries a state the status becomes that state. *)
Theorem first_result_is_own_probe file evs env msg :
  forallb not_power_result evs = true ->
  power_result msg = true ->
  let s1 := state_of (on_connect (init file)) in
  let s2 := fst (serve strptime timestamp evs s1) in
  let s3 := state_of (on_message strptime timestamp env msg s2) in
  command_sent s1 = true /\
  forced_ts s3 = NInt 0 /\
  forall message p,
    payload msg = Some message -> getitem message "POWER" = Some p ->
    status s3 = p.
Proof.
  intros Hall Hp s1 s2 s3.
  assert (Hc1 : command_sent s1 = true) by reflexivity.
  destruct (serve_pending evs s1 Hall Hc1) as [Hc2 Hf2].
  fold s2 in Hc2, Hf2.
  destruct (on_message_acknowledged env msg s2 Hp Hc2) as [Hf3 _].
  fold s3 in Hf3.
  split; [ exact Hc1 | split ].
  - rewrite Hf3, Hf2. reflexivity.
  - intros message p Hm Hg. subst s3.
    destruct msg as [ tp pl ]. cbn [payload] in Hm. subst pl.
    unfold power_result in Hp. cbn [topic payload] in Hp.
    apply andb_prop in Hp. destruct Hp as [Ht _].
    apply String.eqb_eq in Ht. subst tp.
    rewrite (on_message_power env message p s2 Hg), Hc2. reflexivity.
Qed.

(** ** The queue under the callbacks *)

(** A callback leaves the queue as it is or appends one reading to it. *)
Lemma handle_queue (ev : event) (s : MqttClient) :
  let s' := state_of (handle strptime timestamp ev s) in
  queue s' = queue s \/ exists r, queue s' = deque_append (queue s) r.
Proof.
  destruct ev as [ | env msg ]; cbn [handle]; [ left; reflexivity | ].
  destruct (topic msg =? SENSOR)%string eqn:Ht.
  - apply String.eqb_eq in Ht. destruct msg as [ tp [ message | ] ];
      cbn [topic] in Ht; subst tp; [ | left; reflexivity ].
    destruct (sensor_message_kinds message)
      as [ Hf | (d & t & h & Hd & Htm & Hh & Tt & Th) ].
    + left. destruct (on_message_discarded env message s Hf) as (_ & Hs & _).
      cbv zeta in Hs |- *. rewrite Hs. reflexivity.
    + right. exists (mk_reading d t h).
      destruct (can_save env) eqn:Hsave.
      * cbv zeta.
        rewrite (on_message_reading env message s d t h Hd Htm Hh Tt Th Hsave).
        cbv zeta. rewrite control_run.
        destruct (automatic _ _ _); [ destruct (is_confort d);
          [ destruct (eq_str _ _);
            [ destruct (gt t upper) as [ [ | ] | ]
            | destruct (lt t lower) as [ [ | ] | ] ] | ]
          | destruct (time_left _ _ _) ];
          reflexivity.
      * cbv zeta.
        rewrite (on_message_unsaved env message s d t h Hd Htm Hh Tt Th Hsave).
        reflexivity.
  - left. destruct (power_result msg) eqn:Hp.
    + destruct msg as [ tp [ message | ] ]; unfold power_result in Hp;
        cbn [topic payload] in Hp, Ht.
      * apply andb_prop in Hp. destruct Hp as [Hr Hp].
        apply String.eqb_eq in Hr. subst tp.
        on_result_topic.
        destruct (contains "POWER" message) as [ [ | ] | ]; try discriminate Hp.
        cbv iota beta.
        destruct (command_sent s), (getitem message "POWER"); reflexivity.
      * rewrite andb_false_r in Hp. discriminate Hp.
    + destruct (on_message_ignored env msg s Ht Hp) as (_ & Hs & _).
      cbv zeta in Hs |- *. rewrite Hs. reflexivity.
Qed.

(** Started without a file, the client never holds more than 100 readings,
    whatever it receives. *)
Lemma serve_queue_bounded (evs : list event) :
  forall s,
    maxlen (queue s) = Some 100%nat ->
    (List.length (items (queue s)) <= 100)%nat ->
    let s' := fst (serve strptime timestamp evs s) in
    maxlen (queue s') = Some 100%nat /\
    (List.length (items (queue s')) <= 100)%nat.
Proof.
  induction evs as [ | ev evs IH ]; intros s Hm Hl; cbn [serve].
  - split; assumption.
  - pose proof (handle_queue ev s) as Hq. unfold state_of in Hq. cbv zeta in Hq.
    destruct (handle strptime timestamp ev s) as [ [ o s1 ] t1 ].
    cbn [fst snd] in Hq.
    assert (H1 : maxlen (queue s1) = Some 100%nat /\
                 (List.length (items (queue s1)) <= 100)%nat).
    { destruct Hq as [ Hq | [ r Hq ] ]; rewrite Hq.
      - split; assumption.
      - destruct (deque_append_items 100 (queue s) r Hm Hl) as [Hi Hm'].
        split; [ exact Hm' | ]. rewrite Hi. apply lastn_length. }
    destruct H1 as [Hm1 Hl1].
    specialize (IH s1 Hm1 Hl1). cbv zeta in IH.
    destruct (serve strptime timestamp evs s1) as [ s2 t2 ].
    exact IH.
Qed.

End Behaviour.

(** ** The theorems on the concrete machine *)

(** ON and too hot: OFF.  OFF and too cold: ON.  In the band: nothing. *)
Lemma hysteresis_in_comfort_witness :
  published (effects_of (Utc.on_message (Utc.env 0)
    (Utc.tele "2023-11-15T06:30:00" (Utc.degrees 225) (JInt 40))
    (Utc.heater "ON" false (NInt 0)))) = [(POWER, "OFF")] /\
  published (effects_of (Utc.on_message (Utc.env 0)
    (Utc.tele "2023-11-15T06:30:00" (Utc.degrees 210) (JInt 40))
    (Utc.heater "OFF" false (NInt 0)))) = [(POWER, "ON")] /\
  published (effects_of (Utc.on_message (Utc.env 0)
    (Utc.tele "2023-11-15T06:30:00" (JInt 22) (JInt 40))
    (Utc.heater "ON" false (NInt 0)))) = [].
Proof.
  split; [ | split ].
  - apply (proj1 (hysteresis_in_comfort Utc.strptime Utc.timestamp (Utc.env 0)
                   (Utc.sensor "2023-11-15T06:30:00" (Utc.degrees 225) (JInt 40))
                   (Utc.heater "ON" false (NInt 0)) (Utc.at_time 6 30 0) (Utc.degrees 225) (JInt 40)
                   (NFloat (float_div (float_of_Z 225) (float_of_Z 10)))
                   eq_refl eq_refl eq_refl eq_refl eq_refl eq_refl eq_refl eq_refl eq_refl));
      vm_compute; reflexivity.
  - apply (proj1 (proj2 (hysteresis_in_comfort Utc.strptime Utc.timestamp (Utc.env 0)
                   (Utc.sensor "2023-11-15T06:30:00" (Utc.degrees 210) (JInt 40))
                   (Utc.heater "OFF" false (NInt 0)) (Utc.at_time 6 30 0) (Utc.degrees 210) (JInt 40)
                   (NFloat (float_div (float_of_Z 210) (float_of_Z 10)))
                   eq_refl eq_refl eq_refl eq_refl eq_refl eq_refl eq_refl eq_refl eq_refl)));
      vm_compute; reflexivity.
  - apply (proj2 (proj2 (hysteresis_in_comfort Utc.strptime Utc.timestamp (Utc.env 0)
                   (Utc.sensor "2023-11-15T06:30:00" (JInt 22) (JInt 40))
                   (Utc.heater "ON" false (NInt 0)) (Utc.at_time 6 30 0) (JInt 22) (JInt 40) (NInt 22)
                   eq_refl eq_refl eq_refl eq_refl eq_refl eq_refl eq_refl eq_refl eq_refl)));
      vm_compute; reflexivity.
Defined.

(** At nine o'clock OFF is sent, here for a heater that is OFF at 25 degrees. *)
Lemma off_outside_comfort_witness :
  published (effects_of (Utc.on_message (Utc.env 0)
    (Utc.tele "2023-11-15T09:00:00" (Utc.degrees 250) (JInt 40))
    (Utc.heater "OFF" false (NInt 0)))) = [(POWER, "OFF")].
Proof.
  apply (proj1 (off_outside_comfort Utc.strptime Utc.timestamp (Utc.env 0)
           (Utc.sensor "2023-11-15T09:00:00" (Utc.degrees 250) (JInt 40))
           (Utc.heater "OFF" false (NInt 0)) (Utc.at_time 9 0 0) (Utc.degrees 250) (JInt 40)
           eq_refl eq_refl eq_refl eq_refl eq_refl eq_refl eq_refl eq_refl)).
Defined.

(** C2 fails on the 3600th second.  The button was pressed at 06:00:00 and
    the reading is of 07:00:00: [now - last_forced_at < 3600] is false, so
    by the claim the reading is not overridden and, the heater being OFF
    at 15 degrees in a comfort period, ON is due.  The callback still takes
    it as forced: it publishes nothing and logs 0 minutes left. *)
Lemma override_covers_3600th_second :
  let s := Utc.heater "OFF" false (NFloat (float_of_Z Utc.six_o_clock)) in
  let message := Utc.sensor "2023-11-15T07:00:00" (Utc.degrees 150) (JInt 40) in
  let r := Utc.on_message (Utc.env 0) (mk_msg SENSOR (Some message)) s in
  option_map Utc.timestamp (field_date Utc.strptime message)
  = Some (float_of_Z (Utc.six_o_clock + 3600)) /\
  overridden_within_hour (forced_ts s) (NFloat (float_of_Z (Utc.six_o_clock + 3600)))
  = false /\
  is_confort (Utc.at_time 7 0 0) = true /\
  published (effects_of r) = [] /\
  logged (effects_of r)
  = [LogMessage SENSOR message;
     LogState (mk_reading (Utc.at_time 7 0 0) (Utc.degrees 150) (JInt 40));
     LogForced (JStr "OFF") 0].
Proof. vm_compute. repeat split. Qed.

(** Ten minutes after the button was pressed nothing is published and 50
    minutes are left; one second past the hour the reading is handled in
    automatic mode. *)
Lemma override_window_witness :
  let s := Utc.heater "OFF" false (NFloat (float_of_Z Utc.six_o_clock)) in
  (published (effects_of (Utc.on_message (Utc.env 0)
     (Utc.tele "2023-11-15T06:10:00" (Utc.degrees 150) (JInt 40)) s)) = [] /\
   logged (effects_of (Utc.on_message (Utc.env 0)
     (Utc.tele "2023-11-15T06:10:00" (Utc.degrees 150) (JInt 40)) s))
   = [LogMessage SENSOR (Utc.sensor "2023-11-15T06:10:00" (Utc.degrees 150) (JInt 40));
      LogState (mk_reading (Utc.at_time 6 10 0) (Utc.degrees 150) (JInt 40));
      LogForced (JStr "OFF") 50]) /\
  In LogAutomatic (logged (effects_of (Utc.on_message (Utc.env 0)
     (Utc.tele "2023-11-15T07:00:01" (Utc.degrees 150) (JInt 40)) s))).
Proof.
  intro s. split.
  - pose proof (proj1 (override_window Utc.strptime Utc.timestamp (Utc.env 0)
        (Utc.sensor "2023-11-15T06:10:00" (Utc.degrees 150) (JInt 40))
        s (Utc.at_time 6 10 0) (Utc.degrees 150) (JInt 40)
        eq_refl eq_refl eq_refl eq_refl eq_refl eq_refl) eq_refl) as W.
    split; [ exact (proj1 W) | ].
    apply (proj2 (proj2 (proj2 (proj2 (proj2 W))))). reflexivity.
  - apply (proj2 (override_window Utc.strptime Utc.timestamp (Utc.env 0)
        (Utc.sensor "2023-11-15T07:00:01" (Utc.degrees 150) (JInt 40))
        s (Utc.at_time 7 0 1) (Utc.degrees 150) (JInt 40)
        eq_refl eq_refl eq_refl eq_refl eq_refl eq_refl)).
    reflexivity.
Defined.

(** An acknowledged command, then a press on the button at 06:00:00. *)
Lemma power_result_attribution_witness :
  let acked := state_of (Utc.on_message (Utc.env Utc.six_o_clock) (Utc.stat "ON")
                           (Utc.heater "OFF" true (NInt 0))) in
  let forced := state_of (Utc.on_message (Utc.env Utc.six_o_clock) (Utc.stat "ON")
                            (Utc.heater "OFF" false (NInt 0))) in
  (command_sent acked = false /\ status acked = JStr "ON" /\ forced_ts acked = NInt 0) /\
  (status forced = JStr "ON" /\ forced_ts forced = NFloat (float_of_Z Utc.six_o_clock)).
Proof.
  intros acked forced. split.
  - apply (proj1 (power_result_attribution Utc.strptime Utc.timestamp
                    (Utc.env Utc.six_o_clock) (JObj [("POWER", JStr "ON")]) (JStr "ON")
                    (Utc.heater "OFF" true (NInt 0)) eq_refl)).
    reflexivity.
  - apply (proj2 (power_result_attribution Utc.strptime Utc.timestamp
                    (Utc.env Utc.six_o_clock) (JObj [("POWER", JStr "ON")]) (JStr "ON")
                    (Utc.heater "OFF" false (NInt 0)) eq_refl)).
    reflexivity.
Defined.

(** C5 fails outside the comfort periods: at nine o'clock OFF is published
    for a heater whose status is already OFF. *)
Lemma off_repeated_outside_comfort :
  let s := Utc.heater "OFF" false (NInt 0) in
  let r := Utc.on_message (Utc.env 0)
             (Utc.tele "2023-11-15T09:00:00" (Utc.degrees 190) (JInt 40)) s in
  eq_str (status s) "ON" = false /\
  published (effects_of r) = [(POWER, "OFF")].
Proof. vm_compute. split; reflexivity. Qed.

(** ON was published, so the status was not ON; OFF was published at nine
    o'clock, outside the comfort periods. *)
Lemma commands_follow_status_witness :
  eq_str (status (Utc.heater "OFF" false (NInt 0))) "ON" = false /\
  (eq_str (status (Utc.heater "OFF" false (NInt 0))) "ON" = true \/
   exists message d,
     payload (Utc.tele "2023-11-15T09:00:00" (Utc.degrees 190) (JInt 40)) = Some message /\
     field_date Utc.strptime message = Some d /\ is_confort d = false).
Proof.
  split.
  - apply (proj1 (commands_follow_status Utc.strptime Utc.timestamp (Utc.env 0)
                    (Utc.tele "2023-11-15T06:30:00" (Utc.degrees 190) (JInt 40))
                    (Utc.heater "OFF" false (NInt 0)))).
    vm_compute. left. reflexivity.
  - apply (proj1 (proj2 (commands_follow_status Utc.strptime Utc.timestamp (Utc.env 0)
                    (Utc.tele "2023-11-15T09:00:00" (Utc.degrees 190) (JInt 40))
                    (Utc.heater "OFF" false (NInt 0))))).
    vm_compute. left. reflexivity.
Defined.

(** C7 fails on a temperature that is not a number: the text ["hot"] is
    true, so at nine o'clock the reading is queued, saved, and OFF is
    published. *)
Lemma textual_temperature_is_queued :
  let s := Utc.heater "ON" false (NInt 0) in
  let bad := mk_reading (Utc.at_time 9 0 0) (JStr "hot") (JInt 40) in
  let r := Utc.on_message (Utc.env 0)
             (Utc.tele "2023-11-15T09:00:00" (JStr "hot") (JInt 40)) s in
  as_number (JStr "hot") = None /\
  items (queue s) = [] /\
  items (queue (state_of r)) = [bad] /\
  saved (effects_of r) = [mk_deque [bad] (Some 100%nat)] /\
  published (effects_of r) = [(POWER, "OFF")].
Proof. vm_compute. repeat split. Qed.

(** A message without its temperature. *)
Lemma malformed_telemetry_discarded_witness :
  let s := Utc.heater "ON" false (NInt 0) in
  let msg := mk_msg SENSOR
               (Some (JObj [("Time", JStr "2023-11-15T09:00:00");
                            ("SI7021", JObj [("Humidity", JInt 40)])])) in
  let r := Utc.on_message (Utc.env 0) msg s in
  result_of r = Some tt /\ state_of r = s /\
  published (effects_of r) = [] /\ saved (effects_of r) = [] /\
  existsb is_error (logged (effects_of r)) = true.
Proof.
  intros s msg.
  apply (malformed_telemetry_discarded Utc.strptime Utc.timestamp (Utc.env 0) msg s eq_refl).
  right. eexists. split; [ reflexivity | ]. right. left. reflexivity.
Defined.

(** A reading, then the answer to the request sent on connection. *)
Lemma first_result_is_own_probe_witness :
  let s1 := state_of (on_connect (init None)) in
  let evs := [Message (Utc.env 0) (Utc.tele "2023-11-15T06:30:00" (Utc.degrees 190) (JInt 40))] in
  let s3 := state_of (Utc.on_message (Utc.env Utc.six_o_clock) (Utc.stat "OFF")
                        (fst (Utc.serve evs s1))) in
  forced_ts s3 = NInt 0 /\ status s3 = JStr "OFF".
Proof.
  intros s1 evs s3.
  pose proof (first_result_is_own_probe Utc.strptime Utc.timestamp None evs
                (Utc.env Utc.six_o_clock) (Utc.stat "OFF") eq_refl eq_refl) as W.
  split.
  - exact (proj1 (proj2 W)).
  - exact (proj2 (proj2 W) _ _ eq_refl eq_refl).
Defined.

(** A reading of 0 degrees. *)
Lemma zero_reading_dropped_witness :
  let s := Utc.heater "OFF" false (NInt 0) in
  let message := Utc.sensor "2023-11-15T06:30:00" (JInt 0) (JInt 40) in
  let r := Utc.on_message (Utc.env 0) (mk_msg SENSOR (Some message)) s in
  result_of r = Some tt /\ state_of r = s /\
  saved (effects_of r) = [] /\ published (effects_of r) = [] /\
  logged (effects_of r) = [LogMessage SENSOR message].
Proof.
  intros s message.
  apply (zero_reading_dropped Utc.strptime Utc.timestamp (Utc.env 0) message s
           (JInt 0) (JInt 40) eq_refl eq_refl).
  left. reflexivity.
Defined.

(** ** Runs of the whole controller *)

(** Start-up: the request is sent on connection, the answer OFF sets the
    status and is not taken for a forced change. *)
Example startup_probe :
  let s1 := state_of (on_connect (init None)) in
  let s2 := state_of (Utc.on_message (Utc.env Utc.six_o_clock) (Utc.stat "OFF") s1) in
  published (effects_of (on_connect (init None))) = [(POWER, "Hello world!")] /\
  command_sent s1 = true /\
  status s2 = JStr "OFF" /\ command_sent s2 = false /\ forced_ts s2 = NInt 0.
Proof. vm_compute. repeat split. Qed.

(** The heater is OFF, it is 06:30 and 21.0 degrees: ON is sent and the
    command is pending. *)
Example cold_morning :
  let r := Utc.on_message (Utc.env 0)
             (Utc.tele "2023-11-15T06:30:00" (Utc.degrees 210) (JInt 40))
             (Utc.heater "OFF" false (NInt 0)) in
  published (effects_of r) = [(POWER, "ON")] /\ command_sent (state_of r) = true.
Proof. vm_compute. split; reflexivity. Qed.

(** The button was pressed at 06:00:00: the readings of 06:59:59 and of
    07:00:00 are overridden, the reading of 07:00:01 is not. *)
Example override_boundary :
  let forced := NFloat (float_of_Z Utc.six_o_clock) in
  Utc.automatic forced (Utc.at_time 6 59 59) = false /\
  Utc.automatic forced (Utc.at_time 7 0 0) = false /\
  Utc.automatic forced (Utc.at_time 7 0 1) = true.
Proof. vm_compute. repeat split. Qed.

(** A temperature that is not a number, in a comfort period: the reading is
    queued and saved, the comparison raises and the error is logged. *)
Example textual_temperature_in_comfort :
  let r := Utc.on_message (Utc.env 0)
             (Utc.tele "2023-11-15T06:30:00" (JStr "hot") (JInt 40))
             (Utc.heater "ON" false (NInt 0)) in
  result_of r = Some tt /\
  List.length (items (queue (state_of r))) = 1%nat /\
  published (effects_of r) = [] /\
  existsb is_error (logged (effects_of r)) = true.
Proof. vm_compute. repeat split. Qed.

(** ** More on the callbacks: what each event does to the client *)

Lemma published_app (t1 t2 : list effect) :
  published (t1 ++ t2) = published t1 ++ published t2.
Proof.
  induction t1 as [ | [ r | tp | tp p | q ] t1 IH ]; cbn [app published];
    rewrite ?IH; reflexivity.
Qed.

Lemma saved_app (t1 t2 : list effect) : saved (t1 ++ t2) = saved t1 ++ saved t2.
Proof.
  induction t1 as [ | [ r | tp | tp p | q ] t1 IH ]; cbn [app saved];
    rewrite ?IH; reflexivity.
Qed.

Lemma file_after_app (t1 t2 : list effect) :
  forall file, file_after (t1 ++ t2) file = file_after t2 (file_after t1 file).
Proof.
  induction t1 as [ | [ r | tp | tp p | q ] t1 IH ]; intro file;
    cbn [app file_after]; rewrite ?IH; reflexivity.
Qed.

(** The outer [try] of [on_message] has a handler that only logs: whatever
    the body does, the callback returns. *)
Lemma try_except_logged (m : M unit) (r : log_record) (s : MqttClient) :
  result_of (try_except m (logger r) s) = Some tt.
Proof.
  unfold try_except, logger, emit, result_of.
  destruct (m s) as [ [ [ [] | ] s1 ] t1 ]; reflexivity.
Qed.

Section Steps.

Variable strptime : string -> option datetime.
Variable timestamp : datetime -> pyfloat.

Lemma accepted_message_reading message d t h :
  field_date strptime message = Some d ->
  field_temperature message = Some t ->
  field_humidity message = Some h ->
  truthy t = true -> truthy h = true ->
  accepted_message strptime message = Some (mk_reading d t h).
Proof.
  intros Hd Ht Hh Tt Th. unfold accepted_message.
  rewrite Ht, Tt, Hh, Th, Hd. reflexivity.
Qed.

Lemma accepted_message_fails message :
  fails_guard strptime message -> accepted_message strptime message = None.
Proof.
  unfold fails_guard, accepted_message.
  destruct (field_temperature message) as [ t | ]; [ | reflexivity ].
  destruct (truthy t); [ | reflexivity ].
  destruct (field_humidity message) as [ h | ];
    [ | intros _; reflexivity ].
  destruct (truthy h); [ | reflexivity ].
  intros [ H | [ H | H ] ]; try discriminate H. rewrite H. reflexivity.
Qed.

(** The decision touches [command_sent] only, saves nothing, and publishes
    at most one command, ON or OFF, marking it as sent. *)
Lemma control_frame (d : datetime) (t : json) (s : MqttClient) :
  let r := control timestamp d t s in
  queue (state_of r) = queue s /\
  status (state_of r) = status s /\
  forced_ts (state_of r) = forced_ts s /\
  saved (effects_of r) = [] /\
  subscribed (effects_of r) = [] /\
  ((published (effects_of r) = [] /\ command_sent (state_of r) = command_sent s) \/
   (command_sent (state_of r) = true /\
    (published (effects_of r) = [(POWER, "ON")] \/
     published (effects_of r) = [(POWER, "OFF")]))).
Proof.
  cbv zeta. rewrite control_run.
  destruct (automatic timestamp (forced_ts s) d);
    [ destruct (is_confort d);
      [ destruct (eq_str (status s) "ON");
        [ destruct (gt t upper) as [ [ | ] | ]
        | destruct (lt t lower) as [ [ | ] | ] ] | ]
    | destruct (time_left timestamp (forced_ts s) d) ];
    cbn; repeat split; auto.
Qed.

(** A reading that is queued and saved: the callback ends in the state the
    decision ends in, publishes what the decision publishes, and saves the
    queue once, with the new reading in it. *)
Lemma on_message_reading_parts env message s d t h :
  field_date strptime message = Some d ->
  field_temperature message = Some t ->
  field_humidity message = Some h ->
  truthy t = true -> truthy h = true -> can_save env = true ->
  let s1 := set_queue (deque_append (queue s) (mk_reading d t h)) s in
  let c := control timestamp d t s1 in
  let r := on_message strptime timestamp env (mk_msg SENSOR (Some message)) s in
  state_of r = state_of c /\
  published (effects_of r) = published (effects_of c) /\
  saved (effects_of r) = [deque_append (queue s) (mk_reading d t h)] /\
  subscribed (effects_of r) = [].
Proof.
  intros Hd Ht Hh Tt Th Hsave s1 c r. subst r.
  rewrite (on_message_reading strptime timestamp env message s d t h
             Hd Ht Hh Tt Th Hsave).
  cbv zeta. fold s1. fold c.
  destruct (control_frame d t s1) as (_ & _ & _ & Hsv & Hsub & _).
  fold c in Hsv, Hsub. unfold effects_of, state_of in *.
  destruct c as [ [ [ [] | ] s2 ] tr ]; cbn [fst snd] in *.
  - cbn [app published saved subscribed]. rewrite Hsv, Hsub. repeat split.
  - cbn [app published saved subscribed].
    rewrite published_app, saved_app, Hsv. cbn [published saved app].
    rewrite app_nil_r. repeat split.
    clear - Hsub. induction tr as [ | [ r | tp | tp p | q ] tr IH ];
      cbn [app subscribed] in *; try discriminate Hsub; auto.
Qed.

(** What an event does to the queue and to the file: a reading that passes
    the guard is appended, and the whole queue is dumped when the file can
    be written; any other event leaves both alone. *)
Lemma handle_step (ev : event) (s : MqttClient) :
  let r := handle strptime timestamp ev s in
  queue (state_of r)
  = match accepted strptime ev with
    | Some rd => deque_append (queue s) rd
    | None => queue s
    end /\
  saved (effects_of r)
  = match accepted strptime ev with
    | Some rd => if event_can_save ev then [deque_append (queue s) rd] else []
    | None => []
    end.
Proof.
  destruct ev as [ | env msg ]; cbn [handle accepted event_can_save];
    [ split; reflexivity | ].
  destruct (topic msg =? SENSOR)%string eqn:Ht.
  - apply String.eqb_eq in Ht. destruct msg as [ tp [ message | ] ];
      cbn [topic payload] in *; subst tp; [ | split; reflexivity ].
    destruct (sensor_message_kinds strptime message)
      as [ Hf | (d & t & h & Hd & Htm & Hh & Tt & Th) ].
    + rewrite (accepted_message_fails message Hf).
      destruct (on_message_discarded strptime timestamp env message s Hf)
        as (_ & Hs & _ & Hsv).
      cbv zeta in Hs, Hsv |- *. rewrite Hs, Hsv. split; reflexivity.
    + rewrite (accepted_message_reading message d t h Hd Htm Hh Tt Th).
      destruct (can_save env) eqn:Hsave.
      * destruct (on_message_reading_parts env message s d t h
                    Hd Htm Hh Tt Th Hsave) as (Hs & _ & Hsv & _).
        cbv zeta in Hs, Hsv |- *. rewrite Hs, Hsv.
        split; [ | reflexivity ].
        apply (control_frame d t (set_queue _ s)).
      * cbv zeta.
        rewrite (on_message_unsaved strptime timestamp env message s d t h
                   Hd Htm Hh Tt Th Hsave).
        split; reflexivity.
  - destruct (power_result msg) eqn:Hp.
    + destruct msg as [ tp [ message | ] ]; unfold power_result in Hp;
        cbn [topic payload] in Hp, Ht.
      * apply andb_prop in Hp. destruct Hp as [Hr Hp].
        apply String.eqb_eq in Hr. subst tp.
        on_result_topic.
        destruct (contains "POWER" message) as [ [ | ] | ]; try discriminate Hp.
        cbv iota beta.
        destruct (command_sent s), (getitem message "POWER"); split; reflexivity.
      * rewrite andb_false_r in Hp. discriminate Hp.
    + destruct (on_message_ignored strptime timestamp env msg s Ht Hp)
        as (_ & Hs & _ & Hsv).
      cbv zeta in Hs, Hsv |- *. rewrite Hs, Hsv. split; reflexivity.
Qed.

(** A callback that published left a command pending and [forced_ts] as it
    was; what it published is one ON or one OFF, for a sensor message. *)
Lemma published_pending env msg s :
  let r := on_message strptime timestamp env msg s in
  published (effects_of r) <> [] ->
  topic msg = SENSOR /\
  command_sent (state_of r) = true /\
  forced_ts (state_of r) = forced_ts s /\
  (published (effects_of r) = [(POWER, "ON")] \/
   published (effects_of r) = [(POWER, "OFF")]).
Proof.
  intros r Hp. subst r.
  destruct (on_message_published strptime timestamp env msg s)
    as [ Hn | (message & d & t & h & -> & Hd & Ht & Hh & Tt & Th & Hsave) ];
    [ contradiction | ].
  destruct (on_message_reading_parts env message s d t h Hd Ht Hh Tt Th Hsave)
    as (Hs & Hpub & _).
  cbv zeta in Hs, Hpub. rewrite Hs, Hpub in *.
  destruct (control_frame d t (set_queue (deque_append (queue s) (mk_reading d t h)) s))
    as (_ & _ & Hf & _ & _ & [ [Hnone _] | [Hc Hcmd] ]).
  - cbv zeta in Hnone. contradiction.
  - cbv zeta in Hf, Hc, Hcmd. repeat split; assumption.
Qed.

(** The queue after a run is the queue before it with the accepted readings
    appended one by one. *)
Lemma serve_queue (evs : list event) :
  forall s, queue (fst (serve strptime timestamp evs s))
            = appends (accepted_readings strptime evs) (queue s).
Proof.
  induction evs as [ | ev evs IH ]; intro s; cbn [serve accepted_readings].
  - reflexivity.
  - destruct (handle_step ev s) as [Hq _]. unfold state_of in Hq. cbv zeta in Hq.
    destruct (handle strptime timestamp ev s) as [ [ o s1 ] t1 ].
    cbn [fst snd] in Hq. specialize (IH s1).
    destruct (serve strptime timestamp evs s1) as [ s2 t2 ].
    cbn [fst] in IH |- *. rewrite IH, Hq.
    destruct (accepted strptime ev); reflexivity.
Qed.

Lemma file_after_saved (t : list effect) :
  forall file,
    file_after t file = fold_left (fun _ q => Some q) (saved t) file.
Proof.
  induction t as [ | [ r | tp | tp p | q ] t IH ]; intro file;
    cbn [file_after saved fold_left]; rewrite ?IH; reflexivity.
Qed.

(** While the file can be written it holds the queue of the client. *)
Lemma serve_file (evs : list event) :
  forall s file,
    read_states file = queue s ->
    forallb event_can_save evs = true ->
    read_states (file_after (snd (serve strptime timestamp evs s)) file)
    = queue (fst (serve strptime timestamp evs s)).
Proof.
  induction evs as [ | ev evs IH ]; intros s file Hfile Hall; cbn [serve].
  - exact Hfile.
  - cbn [forallb] in Hall. apply andb_prop in Hall. destruct Hall as [Hev Hall].
    destruct (handle_step ev s) as [Hq Hsv].
    unfold state_of, effects_of in Hq, Hsv. cbv zeta in Hq, Hsv.
    destruct (handle strptime timestamp ev s) as [ [ o s1 ] t1 ].
    cbn [fst snd] in Hq, Hsv.
    assert (H1 : read_states (file_after t1 file) = queue s1).
    { rewrite file_after_saved, Hsv, Hq.
      destruct (accepted strptime ev); [ rewrite Hev | ]; cbn; auto. }
    specialize (IH s1 (file_after t1 file) H1 Hall).
    destruct (serve strptime timestamp evs s1) as [ s2 t2 ].
    cbn [fst snd] in IH |- *. rewrite file_after_app. exact IH.
Qed.

(** ** Robustness of [on_message] *)

(** X1. [on_message] never lets an exception out, whatever the topic, the
    payload and the attributes; a payload that is not JSON only makes it
    log the error and leaves the client as it was. *)
Theorem on_message_never_raises env msg s :
  let r := on_message strptime timestamp env msg s in
  result_of r = Some tt /\
  (payload msg = None -> state_of r = s /\ effects_of r = [Log LogErrOccured]).
Proof.
  split.
  - unfold on_message. apply try_except_logged.
  - destruct msg as [ tp pl ]. cbn [payload]. intros ->. split; reflexivity.
Qed.

(** X2. A message on a topic that is neither the sensor topic nor the
    result topic, and a result that is a dict without the key ['POWER'],
    are only logged: the client is unchanged and the only effect is the
    debug record of the message. *)
Theorem unrelated_message_ignored env msg message s :
  payload msg = Some message ->
  topic msg <> SENSOR ->
  (topic msg <> RESULT \/
   exists kvs, message = JObj kvs /\ lookup "POWER" kvs = None) ->
  let r := on_message strptime timestamp env msg s in
  state_of r = s /\ effects_of r = [Log (LogMessage (topic msg) message)].
Proof.
  destruct msg as [ tp pl ]. cbn [topic payload]. intros -> Hs Hr.
  apply String.eqb_neq in Hs.
  mrun_handler. rewrite Hs. cbv iota beta.
  destruct (tp =? RESULT)%string eqn:Er; [ | split; reflexivity ].
  apply String.eqb_eq in Er.
  destruct Hr as [ Hr | (kvs & -> & Hk) ]; [ contradiction | ].
  cbn [contains]. rewrite Hk. split; reflexivity.
Qed.

(** X3. A sensor message never changes the status nor [forced_ts], never
    clears a pending command and never subscribes: only results move the
    power state of the client. *)
Theorem telemetry_keeps_power_state env msg s :
  topic msg = SENSOR ->
  let r := on_message strptime timestamp env msg s in
  status (state_of r) = status s /\
  forced_ts (state_of r) = forced_ts s /\
  (command_sent s = true -> command_sent (state_of r) = true) /\
  subscribed (effects_of r) = [].
Proof.
  destruct msg as [ tp [ message | ] ]; cbn [topic]; intros ->;
    [ | repeat split; auto ].
  destruct (on_message_sensor_state strptime timestamp env message s)
    as (Hst & Hf & Hc).
  cbv zeta in Hst, Hf, Hc |- *.
  split; [ exact Hst | split; [ exact Hf | split ] ].
  - intro Hp. destruct Hc as [ Hc | Hc ]; congruence.
  - destruct (sensor_message_kinds strptime message)
      as [ Hfail | (d & t & h & Hd & Htm & Hh & Tt & Th) ].
    + revert Hfail. unfold fails_guard. on_sensor_topic.
      destruct (field_date strptime message) as [ d | ];
      destruct (field_temperature message) as [ t | ];
      try destruct (truthy t);
      destruct (field_humidity message) as [ h | ];
      try destruct (truthy h); cbv beta iota;
      try (intros _; reflexivity);
      intros H; exfalso; intuition congruence.
    + destruct (can_save env) eqn:Hsave.
      * apply (on_message_reading_parts env message s d t h Hd Htm Hh Tt Th Hsave).
      * rewrite (on_message_unsaved strptime timestamp env message s d t h
                   Hd Htm Hh Tt Th Hsave).
        reflexivity.
Qed.

(** X4. A message on the result topic never touches the queue, publishes
    nothing, saves nothing and never sets a command pending. *)
Theorem result_keeps_queue env msg s :
  topic msg = RESULT ->
  let r := on_message strptime timestamp env msg s in
  queue (state_of r) = queue s /\
  published (effects_of r) = [] /\
  saved (effects_of r) = [] /\
  (command_sent (state_of r) = true -> command_sent s = true).
Proof.
  destruct msg as [ tp [ message | ] ]; cbn [topic]; intros ->;
    [ | repeat split; auto ].
  on_result_topic.
  destruct (contains "POWER" message) as [ [ | ] | ]; cbv iota beta;
    try (repeat split; auto; fail).
  destruct (command_sent s) eqn:Hc, (getitem message "POWER");
    cbn; rewrite ?Hc; repeat split; auto.
Qed.

(** X5. A reading that passes the guard is queued and the queue is dumped
    to the file exactly once, with the reading in it, whatever the decision
    that follows does (a command, nothing, or an exception that is caught). *)
Theorem accepted_reading_saved_once env message s d t h :
  field_date strptime message = Some d ->
  field_temperature message = Some t ->
  field_humidity message = Some h ->
  truthy t = true -> truthy h = true -> can_save env = true ->
  let r := on_message strptime timestamp env (mk_msg SENSOR (Some message)) s in
  queue (state_of r) = deque_append (queue s) (mk_reading d t h) /\
  saved (effects_of r) = [queue (state_of r)].
Proof.
  intros Hd Ht Hh Tt Th Hsave r. subst r.
  destruct (on_message_reading_parts env message s d t h Hd Ht Hh Tt Th Hsave)
    as (Hs & _ & Hsv & _).
  cbv zeta in Hs, Hsv. rewrite Hs, Hsv.
  destruct (control_frame d t (set_queue (deque_append (queue s) (mk_reading d t h)) s))
    as (Hq & _).
  cbv zeta in Hq. rewrite Hq. split; reflexivity.
Qed.

(** X6. When the file cannot be written the reading stays in the queue of
    the client, but the decision is skipped: nothing is published, the
    status and the flags are unchanged, and the error is logged after the
    record of the reading. *)
Theorem unsaved_reading_skips_decision env message s d t h :
  field_date strptime message = Some d ->
  field_temperature message = Some t ->
  field_humidity message = Some h ->
  truthy t = true -> truthy h = true -> can_save env = false ->
  let r := on_message strptime timestamp env (mk_msg SENSOR (Some message)) s in
  queue (state_of r) = deque_append (queue s) (mk_reading d t h) /\
  status (state_of r) = status s /\
  command_sent (state_of r) = command_sent s /\
  forced_ts (state_of r) = forced_ts s /\
  published (effects_of r) = [] /\ saved (effects_of r) = [] /\
  logged (effects_of r)
  = [LogMessage SENSOR message; LogState (mk_reading d t h); LogErrOccured].
Proof.
  intros Hd Ht Hh Tt Th Hsave r. subst r.
  rewrite (on_message_unsaved strptime timestamp env message s d t h
             Hd Ht Hh Tt Th Hsave).
  repeat split.
Qed.

(** X7. In automatic mode during a comfort period a temperature that is
    not a number (a text, a list, a dict) makes the comparison raise: the
    reading is already queued and saved, no command is published, the
    pending flag is unchanged and the error is logged. *)
Theorem non_numeric_temperature_in_comfort env message s d t h :
  field_date strptime message = Some d ->
  field_temperature message = Some t ->
  field_humidity message = Some h ->
  truthy t = true -> truthy h = true -> can_save env = true ->
  automatic timestamp (forced_ts s) d = true ->
  is_confort d = true ->
  as_number t = None ->
  let r := on_message strptime timestamp env (mk_msg SENSOR (Some message)) s in
  published (effects_of r) = [] /\
  command_sent (state_of r) = command_sent s /\
  queue (state_of r) = deque_append (queue s) (mk_reading d t h) /\
  logged (effects_of r)
  = [LogMessage SENSOR message; LogState (mk_reading d t h);
     LogAutomatic; LogConfort; LogErrOccured].
Proof.
  intros Hd Ht Hh Tt Th Hsave Ha Hc Hx r. subst r.
  rewrite (on_message_reading strptime timestamp env message s d t h
             Hd Ht Hh Tt Th Hsave).
  cbv zeta. rewrite control_run.
  cbn [forced_ts status set_queue]. rewrite Ha, Hc.
  unfold gt, lt. rewrite Hx. cbn [option_map].
  destruct (eq_str (status s) "ON"); repeat split.
Qed.

(** X8. A temperature decoded as NaN passes the guard, and in a comfort
    period both comparisons are false: whatever the status, nothing is
    published and no error is logged. *)
Theorem nan_temperature_in_comfort env message s d h :
  field_date strptime message = Some d ->
  field_temperature message = Some (JFloat S754_nan) ->
  field_humidity message = Some h ->
  truthy h = true -> can_save env = true ->
  automatic timestamp (forced_ts s) d = true ->
  is_confort d = true ->
  let r := on_message strptime timestamp env (mk_msg SENSOR (Some message)) s in
  published (effects_of r) = [] /\
  command_sent (state_of r) = command_sent s /\
  logged (effects_of r)
  = [LogMessage SENSOR message; LogState (mk_reading d (JFloat S754_nan) h);
     LogAutomatic; LogConfort].
Proof.
  intros Hd Ht Hh Th Hsave Ha Hc r. subst r.
  rewrite (on_message_reading strptime timestamp env message s d
             (JFloat S754_nan) h Hd Ht Hh eq_refl Th Hsave).
  cbv zeta. rewrite control_run.
  cbn [forced_ts status set_queue]. rewrite Ha, Hc.
  destruct (eq_str (status s) "ON"); repeat split.
Qed.

(** ** Commands and their acknowledgement *)

(** X9. Whenever [on_message] publishes, the message was a sensor message,
    what is published is a single ON or a single OFF on the command topic,
    and the command is marked as sent. *)
Theorem publish_marks_command_sent env msg s :
  let r := on_message strptime timestamp env msg s in
  published (effects_of r) <> [] ->
  topic msg = SENSOR /\
  command_sent (state_of r) = true /\
  (published (effects_of r) = [(POWER, "ON")] \/
   published (effects_of r) = [(POWER, "OFF")]).
Proof.
  intros r Hp.
  destruct (published_pending env msg s Hp) as (Ht & Hc & _ & Hcmd).
  repeat split; assumption.
Qed.

(** X10. A command of the controller followed by a power result never
    starts an override: the result clears the pending flag and [forced_ts]
    is what it was before the command. *)
Theorem own_command_then_result env msg env' msg' s :
  let r1 := on_message strptime timestamp env msg s in
  let r2 := on_message strptime timestamp env' msg' (state_of r1) in
  published (effects_of r1) <> [] ->
  power_result msg' = true ->
  forced_ts (state_of r2) = forced_ts s /\
  command_sent (state_of r2) = false.
Proof.
  intros r1 r2 Hp Hr.
  destruct (published_pending env msg s Hp) as (_ & Hc & Hf & _).
  fold r1 in Hc, Hf.
  destruct (on_message_acknowledged strptime timestamp env' msg' (state_of r1) Hr Hc)
    as [Hf2 Hc2].
  fold r2 in Hf2, Hc2. split; [ congruence | exact Hc2 ].
Qed.

(** X11. While a command is pending (its result was lost, or has not come
    yet) no event but a power result clears the flag, and the next power
    result, even one caused by the button, does not set [forced_ts]. *)
Theorem pending_command_masks_result s evs env msg :
  command_sent s = true ->
  forallb not_power_result evs = true ->
  power_result msg = true ->
  let s1 := fst (serve strptime timestamp evs s) in
  let s2 := state_of (on_message strptime timestamp env msg s1) in
  command_sent s1 = true /\
  forced_ts s2 = forced_ts s /\
  command_sent s2 = false.
Proof.
  intros Hc Hall Hp s1 s2.
  destruct (serve_pending strptime timestamp evs s Hall Hc) as [Hc1 Hf1].
  fold s1 in Hc1, Hf1.
  destruct (on_message_acknowledged strptime timestamp env msg s1 Hp Hc1)
    as [Hf2 Hc2].
  fold s2 in Hf2, Hc2.
  split; [ exact Hc1 | split; [ congruence | exact Hc2 ] ].
Qed.

(** X12. [on_connect], at start-up or on a reconnection: it subscribes to
    the sensor topic then to the result topic, publishes the request for
    the power state, keeps the queue, the status and [forced_ts], and the
    power result that comes next is not taken for a forced change. *)
Theorem reconnect_keeps_state s evs env msg :
  forallb not_power_result evs = true ->
  power_result msg = true ->
  let r1 := on_connect s in
  let s2 := fst (serve strptime timestamp evs (state_of r1)) in
  let s3 := state_of (on_message strptime timestamp env msg s2) in
  result_of r1 = Some tt /\
  subscribed (effects_of r1) = [SENSOR; RESULT] /\
  published (effects_of r1) = [(POWER, "Hello world!")] /\
  queue (state_of r1) = queue s /\
  status (state_of r1) = status s /\
  forced_ts (state_of r1) = forced_ts s /\
  forced_ts s3 = forced_ts s.
Proof.
  intros Hall Hp r1 s2 s3.
  assert (Hc1 : command_sent (state_of r1) = true) by reflexivity.
  destruct (serve_pending strptime timestamp evs (state_of r1) Hall Hc1)
    as [Hc2 Hf2].
  fold s2 in Hc2, Hf2.
  destruct (on_message_acknowledged strptime timestamp env msg s2 Hp Hc2)
    as [Hf3 _].
  fold s3 in Hf3.
  repeat split. rewrite Hf3, Hf2. reflexivity.
Qed.

(** X13. Of two power results in a row the second is always taken for a
    forced change, whatever the first one was: the first leaves no command
    pending, so the second sets the status and [forced_ts] to the time it
    came. *)
Theorem second_result_is_forced env1 message1 p1 env2 message2 p2 s :
  getitem message1 "POWER" = Some p1 ->
  getitem message2 "POWER" = Some p2 ->
  let s1 := state_of (on_message strptime timestamp env1
                        (mk_msg RESULT (Some message1)) s) in
  let s2 := state_of (on_message strptime timestamp env2
                        (mk_msg RESULT (Some message2)) s1) in
  command_sent s1 = false /\
  status s2 = p2 /\
  forced_ts s2 = NFloat (time_time env2).
Proof.
  intros H1 H2 s1 s2.
  assert (Hc : command_sent s1 = false).
  { subst s1. rewrite (on_message_power strptime timestamp env1 message1 p1 s H1).
    destruct (command_sent s) eqn:E; cbn; auto. }
  split; [ exact Hc | ].
  subst s2. rewrite (on_message_power strptime timestamp env2 message2 p2 s1 H2), Hc.
  split; reflexivity.
Qed.

(** X14. A result whose payload is a text or a list holding ['POWER']
    passes the test of line 164, but [message['POWER']] raises: the pending
    flag is cleared all the same, the status, [forced_ts] and the queue are
    unchanged, and the error is logged. *)
Theorem keyless_result_clears_pending env message s :
  contains "POWER" message = Some true ->
  getitem message "POWER" = None ->
  let r := on_message strptime timestamp env (mk_msg RESULT (Some message)) s in
  command_sent (state_of r) = false /\
  status (state_of r) = status s /\
  forced_ts (state_of r) = forced_ts s /\
  queue (state_of r) = queue s /\
  effects_of r = [Log (LogMessage RESULT message); Log LogErrOccured].
Proof.
  intros Hc Hg. on_result_topic. rewrite Hc. cbv iota beta.
  destruct (command_sent s) eqn:Hs; rewrite Hg; cbn; rewrite ?Hs; repeat split.
Qed.

(** ** The queue and its file over a run *)

(** X15. A client started without a file holds, after any run of events,
    the last 100 readings that passed the guard, in the order they came,
    and never more than 100. *)
Theorem history_is_last_100_accepted (evs : list event) :
  let s := fst (serve strptime timestamp evs (init None)) in
  items (queue s) = lastn 100 (accepted_readings strptime evs) /\
  (List.length (items (queue s)) <= 100)%nat /\
  maxlen (queue s) = Some 100%nat.
Proof.
  intro s. subst s. rewrite serve_queue.
  destruct (appends_items 100 (accepted_readings strptime evs)
              (queue (init None)) eq_refl) as [Hi Hm];
    [ cbn; lia | ].
  cbn [init queue read_states items app] in Hi, Hm |- *.
  rewrite Hi. split; [ reflexivity | split; [ apply lastn_length | exact Hm ] ].
Qed.

(** X16. A client started from a file keeps what the file held: with a
    deque of capacity [n] the queue is the last [n] of the readings of the
    file followed by the accepted ones; with a deque without [maxlen] the
    queue keeps every reading and grows without bound. *)
Theorem queue_follows_file_capacity (q : deque) (evs : list event) :
  let s := fst (serve strptime timestamp evs (init (Some q))) in
  (forall n, maxlen q = Some n -> (List.length (items q) <= n)%nat ->
     items (queue s) = lastn n (items q ++ accepted_readings strptime evs) /\
     maxlen (queue s) = Some n) /\
  (maxlen q = None ->
     items (queue s) = items q ++ accepted_readings strptime evs).
Proof.
  intro s. subst s. rewrite serve_queue. cbn [init queue read_states].
  split.
  - intros n Hm Hl. apply appends_items; assumption.
  - intro Hm. generalize (accepted_readings strptime evs). intro rs.
    revert q Hm. induction rs as [ | r rs IH ]; intros q Hm; cbn [appends fold_left].
    + rewrite app_nil_r. reflexivity.
    + unfold appends in IH. rewrite IH.
      * unfold deque_append. rewrite Hm. cbn [items].
        rewrite <- app_assoc. reflexivity.
      * unfold deque_append. rewrite Hm. reflexivity.
Qed.

(** X17. As long as the file can be written it mirrors the queue: starting
    the client again from the file left by a run gives the queue the client
    had, while the status, the pending flag and [forced_ts] start afresh
    (a running override is forgotten). *)
Theorem restart_recovers_queue (file : option deque) (evs : list event) :
  forallb event_can_save evs = true ->
  let run := serve strptime timestamp evs (init file) in
  init (file_after (snd run) file)
  = mk_client (queue (fst run)) JNull false (NInt 0).
Proof.
  intros Hall run. unfold init at 1. f_equal.
  apply (serve_file evs (init file) file eq_refl Hall).
Qed.

End Steps.

(** ** The same on the concrete machine *)

(** A payload that is not JSON, on the sensor topic. *)
Lemma on_message_never_raises_witness :
  let s := Utc.heater "ON" true (NInt 0) in
  let r := Utc.on_message (Utc.env 0) (mk_msg SENSOR None) s in
  state_of r = s /\ effects_of r = [Log LogErrOccured].
Proof.
  intros s r.
  apply (proj2 (on_message_never_raises Utc.strptime Utc.timestamp (Utc.env 0)
                  (mk_msg SENSOR None) s)).
  reflexivity.
Defined.

(** The periodic state report of the device, and the result of a command
    that is not about the power. *)
Lemma unrelated_message_ignored_witness :
  let s := Utc.heater "ON" true (NInt 0) in
  let uptime := JObj [("Uptime", JStr "0T00:05:10")] in
  let dimmer := JObj [("Dimmer", JInt 30)] in
  (state_of (Utc.on_message (Utc.env 0)
     (mk_msg "tele/tasmota_9DA6D1/STATE" (Some uptime)) s) = s /\
   effects_of (Utc.on_message (Utc.env 0)
     (mk_msg "tele/tasmota_9DA6D1/STATE" (Some uptime)) s)
   = [Log (LogMessage "tele/tasmota_9DA6D1/STATE" uptime)]) /\
  (state_of (Utc.on_message (Utc.env 0) (mk_msg RESULT (Some dimmer)) s) = s /\
   effects_of (Utc.on_message (Utc.env 0) (mk_msg RESULT (Some dimmer)) s)
   = [Log (LogMessage RESULT dimmer)]).
Proof.
  intros s uptime dimmer. split.
  - apply (unrelated_message_ignored Utc.strptime Utc.timestamp (Utc.env 0)
             (mk_msg "tele/tasmota_9DA6D1/STATE" (Some uptime)) uptime s eq_refl).
    + apply String.eqb_neq. reflexivity.
    + left. apply String.eqb_neq. reflexivity.
  - apply (unrelated_message_ignored Utc.strptime Utc.timestamp (Utc.env 0)
             (mk_msg RESULT (Some dimmer)) dimmer s eq_refl).
    + apply String.eqb_neq. reflexivity.
    + right. exists [("Dimmer", JInt 30)]. split; reflexivity.
Defined.

(** A cold reading at 06:30 for a heater forced OFF at 06:00 whose last
    command is still pending. *)
Lemma telemetry_keeps_power_state_witness :
  let s := Utc.heater "OFF" true (NFloat (float_of_Z Utc.six_o_clock)) in
  let r := Utc.on_message (Utc.env 0)
             (Utc.tele "2023-11-15T06:30:00" (Utc.degrees 150) (JInt 40)) s in
  status (state_of r) = JStr "OFF" /\
  forced_ts (state_of r) = NFloat (float_of_Z Utc.six_o_clock) /\
  command_sent (state_of r) = true.
Proof.
  intros s r.
  pose proof (telemetry_keeps_power_state Utc.strptime Utc.timestamp (Utc.env 0)
                (Utc.tele "2023-11-15T06:30:00" (Utc.degrees 150) (JInt 40)) s
                eq_refl) as W.
  split; [ exact (proj1 W) | split; [ exact (proj1 (proj2 W)) | ] ].
  exact (proj1 (proj2 (proj2 W)) eq_refl).
Defined.

(** A power result for a client that holds two readings. *)
Lemma result_keeps_queue_witness :
  let s := mk_client (mk_deque [sample 0; sample 1] (Some 100%nat))
                     (JStr "OFF") false (NInt 0) in
  let r := Utc.on_message (Utc.env Utc.six_o_clock) (Utc.stat "ON") s in
  items (queue (state_of r)) = [sample 0; sample 1] /\
  published (effects_of r) = [] /\ saved (effects_of r) = [].
Proof.
  intros s r.
  pose proof (result_keeps_queue Utc.strptime Utc.timestamp
                (Utc.env Utc.six_o_clock) (Utc.stat "ON") s eq_refl) as W.
  split; [ | split ].
  - exact (f_equal items (proj1 W)).
  - exact (proj1 (proj2 W)).
  - exact (proj1 (proj2 (proj2 W))).
Defined.

(** The reading of 06:30 joins the two the client holds and the three are
    dumped. *)
Lemma accepted_reading_saved_once_witness :
  let s := mk_client (mk_deque [sample 0; sample 1] (Some 100%nat))
                     (JStr "OFF") false (NInt 0) in
  let rd := mk_reading (Utc.at_time 6 30 0) (Utc.degrees 150) (JInt 40) in
  let r := Utc.on_message (Utc.env 0)
             (Utc.tele "2023-11-15T06:30:00" (Utc.degrees 150) (JInt 40)) s in
  queue (state_of r) = deque_append (queue s) rd /\
  saved (effects_of r) = [queue (state_of r)].
Proof.
  intros s rd r.
  exact (accepted_reading_saved_once Utc.strptime Utc.timestamp (Utc.env 0)
           (Utc.sensor "2023-11-15T06:30:00" (Utc.degrees 150) (JInt 40)) s
           (Utc.at_time 6 30 0) (Utc.degrees 150) (JInt 40)
           eq_refl eq_refl eq_refl eq_refl eq_refl eq_refl).
Defined.

(** The same reading when the directory of the file is missing. *)
Lemma unsaved_reading_skips_decision_witness :
  let s := Utc.heater "OFF" false (NInt 0) in
  let r := Utc.on_message (mk_environ (float_of_Z 0) false)
             (Utc.tele "2023-11-15T06:30:00" (Utc.degrees 150) (JInt 40)) s in
  List.length (items (queue (state_of r))) = 1%nat /\
  published (effects_of r) = [] /\ saved (effects_of r) = [].
Proof.
  intros s r.
  pose proof (unsaved_reading_skips_decision Utc.strptime Utc.timestamp
                (mk_environ (float_of_Z 0) false)
                (Utc.sensor "2023-11-15T06:30:00" (Utc.degrees 150) (JInt 40)) s
                (Utc.at_time 6 30 0) (Utc.degrees 150) (JInt 40)
                eq_refl eq_refl eq_refl eq_refl eq_refl eq_refl) as W.
  split; [ | split ].
  - exact (f_equal (fun q => List.length (items q)) (proj1 W)).
  - exact (proj1 (proj2 (proj2 (proj2 (proj2 W))))).
  - exact (proj1 (proj2 (proj2 (proj2 (proj2 (proj2 W)))))).
Defined.

(** The text ["hot"] at 06:30. *)
Lemma non_numeric_temperature_in_comfort_witness :
  let s := Utc.heater "ON" false (NInt 0) in
  let r := Utc.on_message (Utc.env 0)
             (Utc.tele "2023-11-15T06:30:00" (JStr "hot") (JInt 40)) s in
  published (effects_of r) = [] /\
  command_sent (state_of r) = false /\
  queue (state_of r)
  = deque_append (queue s) (mk_reading (Utc.at_time 6 30 0) (JStr "hot") (JInt 40)).
Proof.
  intros s r.
  pose proof (non_numeric_temperature_in_comfort Utc.strptime Utc.timestamp (Utc.env 0)
                (Utc.sensor "2023-11-15T06:30:00" (JStr "hot") (JInt 40)) s
                (Utc.at_time 6 30 0) (JStr "hot") (JInt 40)
                eq_refl eq_refl eq_refl eq_refl eq_refl eq_refl eq_refl eq_refl eq_refl)
    as W.
  split; [ exact (proj1 W) | split; [ exact (proj1 (proj2 W)) | ] ].
  exact (proj1 (proj2 (proj2 W))).
Defined.

(** NaN at 06:30, for a heater that is ON. *)
Lemma nan_temperature_in_comfort_witness :
  let s := Utc.heater "ON" false (NInt 0) in
  let r := Utc.on_message (Utc.env 0)
             (Utc.tele "2023-11-15T06:30:00" (JFloat S754_nan) (JInt 40)) s in
  published (effects_of r) = [] /\ command_sent (state_of r) = false.
Proof.
  intros s r.
  pose proof (nan_temperature_in_comfort Utc.strptime Utc.timestamp (Utc.env 0)
                (Utc.sensor "2023-11-15T06:30:00" (JFloat S754_nan) (JInt 40)) s
                (Utc.at_time 6 30 0) (JInt 40)
                eq_refl eq_refl eq_refl eq_refl eq_refl eq_refl eq_refl) as W.
  split; [ exact (proj1 W) | exact (proj1 (proj2 W)) ].
Defined.

(** A cold reading at 06:30 makes the client send ON. *)
Lemma publish_marks_command_sent_witness :
  let r := Utc.on_message (Utc.env 0)
             (Utc.tele "2023-11-15T06:30:00" (Utc.degrees 150) (JInt 40))
             (Utc.heater "OFF" false (NInt 0)) in
  command_sent (state_of r) = true /\
  (published (effects_of r) = [(POWER, "ON")] \/
   published (effects_of r) = [(POWER, "OFF")]).
Proof.
  intro r.
  apply (publish_marks_command_sent Utc.strptime Utc.timestamp (Utc.env 0)
           (Utc.tele "2023-11-15T06:30:00" (Utc.degrees 150) (JInt 40))
           (Utc.heater "OFF" false (NInt 0))).
  vm_compute. intro H. discriminate H.
Defined.

(** The ON sent at 06:30 is acknowledged. *)
Lemma own_command_then_result_witness :
  let r1 := Utc.on_message (Utc.env 0)
              (Utc.tele "2023-11-15T06:30:00" (Utc.degrees 150) (JInt 40))
              (Utc.heater "OFF" false (NInt 0)) in
  let r2 := Utc.on_message (Utc.env (Utc.six_o_clock + 1801)) (Utc.stat "ON")
              (state_of r1) in
  forced_ts (state_of r2) = NInt 0 /\ command_sent (state_of r2) = false.
Proof.
  intros r1 r2.
  apply (own_command_then_result Utc.strptime Utc.timestamp (Utc.env 0)
           (Utc.tele "2023-11-15T06:30:00" (Utc.degrees 150) (JInt 40))
           (Utc.env (Utc.six_o_clock + 1801)) (Utc.stat "ON")
           (Utc.heater "OFF" false (NInt 0))).
  - vm_compute. intro H. discriminate H.
  - reflexivity.
Defined.

(** A command is pending, a reading comes, then the button is pressed. *)
Lemma pending_command_masks_result_witness :
  let s := Utc.heater "OFF" true (NInt 0) in
  let evs := [Message (Utc.env 0)
                (Utc.tele "2023-11-15T06:30:00" (Utc.degrees 218) (JInt 40))] in
  let s2 := state_of (Utc.on_message (Utc.env (Utc.six_o_clock + 1900))
                        (Utc.stat "ON") (fst (Utc.serve evs s))) in
  forced_ts s2 = NInt 0 /\ command_sent s2 = false.
Proof.
  intros s evs s2.
  apply (pending_command_masks_result Utc.strptime Utc.timestamp s evs
           (Utc.env (Utc.six_o_clock + 1900)) (Utc.stat "ON")
           eq_refl eq_refl eq_refl).
Defined.

(** A reconnection during an override, then the answer of the device. *)
Lemma reconnect_keeps_state_witness :
  let s := Utc.heater "ON" false (NFloat (float_of_Z Utc.six_o_clock)) in
  let s3 := state_of (Utc.on_message (Utc.env (Utc.six_o_clock + 600))
                        (Utc.stat "ON") (state_of (on_connect s))) in
  subscribed (effects_of (on_connect s)) = [SENSOR; RESULT] /\
  forced_ts s3 = NFloat (float_of_Z Utc.six_o_clock).
Proof.
  intros s s3.
  pose proof (reconnect_keeps_state Utc.strptime Utc.timestamp s []
                (Utc.env (Utc.six_o_clock + 600)) (Utc.stat "ON")
                eq_refl eq_refl) as W.
  split.
  - exact (proj1 (proj2 W)).
  - exact (proj2 (proj2 (proj2 (proj2 (proj2 (proj2 W)))))).
Defined.

(** The device reports ON twice after a command. *)
Lemma second_result_is_forced_witness :
  let s := Utc.heater "OFF" true (NInt 0) in
  let s1 := state_of (Utc.on_message (Utc.env Utc.six_o_clock) (Utc.stat "ON") s) in
  let s2 := state_of (Utc.on_message (Utc.env (Utc.six_o_clock + 1)) (Utc.stat "ON") s1) in
  command_sent s1 = false /\
  status s2 = JStr "ON" /\
  forced_ts s2 = NFloat (float_of_Z (Utc.six_o_clock + 1)).
Proof.
  intros s s1 s2.
  exact (second_result_is_forced Utc.strptime Utc.timestamp
           (Utc.env Utc.six_o_clock) (JObj [("POWER", JStr "ON")]) (JStr "ON")
           (Utc.env (Utc.six_o_clock + 1)) (JObj [("POWER", JStr "ON")]) (JStr "ON")
           s eq_refl eq_refl).
Defined.

(** The payload is the JSON text ["POWER"]. *)
Lemma keyless_result_clears_pending_witness :
  let s := Utc.heater "OFF" true (NInt 0) in
  let r := Utc.on_message (Utc.env Utc.six_o_clock)
             (mk_msg RESULT (Some (JStr "POWER"))) s in
  command_sent (state_of r) = false /\
  status (state_of r) = JStr "OFF" /\
  forced_ts (state_of r) = NInt 0.
Proof.
  intros s r.
  pose proof (keyless_result_clears_pending Utc.strptime Utc.timestamp
                (Utc.env Utc.six_o_clock) (JStr "POWER") s eq_refl eq_refl) as W.
  split; [ exact (proj1 W) | split; [ exact (proj1 (proj2 W)) | ] ].
  exact (proj1 (proj2 (proj2 W))).
Defined.

(** A file with a deque of capacity 2 that is full, and a file with a deque
    without capacity: one reading comes. *)
Lemma queue_follows_file_capacity_witness :
  let rd := mk_reading (Utc.at_time 6 30 0) (Utc.degrees 150) (JInt 40) in
  let evs := [Message (Utc.env 0)
                (Utc.tele "2023-11-15T06:30:00" (Utc.degrees 150) (JInt 40))] in
  items (queue (fst (Utc.serve evs
    (init (Some (mk_deque [sample 0; sample 1] (Some 2%nat)))))))
  = [sample 1; rd] /\
  items (queue (fst (Utc.serve evs
    (init (Some (mk_deque [sample 0; sample 1] None))))))
  = [sample 0; sample 1; rd].
Proof.
  intros rd evs. split.
  - apply (proj1 (queue_follows_file_capacity Utc.strptime Utc.timestamp
                    (mk_deque [sample 0; sample 1] (Some 2%nat)) evs)
                 2%nat eq_refl).
    cbn. lia.
  - apply (proj2 (queue_follows_file_capacity Utc.strptime Utc.timestamp
                    (mk_deque [sample 0; sample 1] None) evs)).
    reflexivity.
Defined.

(** No file at first; a reading is saved; the client is started again. *)
Lemma restart_recovers_queue_witness :
  let rd := mk_reading (Utc.at_time 6 30 0) (Utc.degrees 150) (JInt 40) in
  let evs := [Connected;
              Message (Utc.env Utc.six_o_clock) (Utc.stat "ON");
              Message (Utc.env 0)
                (Utc.tele "2023-11-15T06:30:00" (Utc.degrees 150) (JInt 40))] in
  let run := Utc.serve evs (init None) in
  status (fst run) = JStr "ON" /\
  init (file_after (snd run) None)
  = mk_client (mk_deque [rd] (Some 100%nat)) JNull false (NInt 0).
Proof.
  intros rd evs run. split; [ reflexivity | ].
  exact (restart_recovers_queue Utc.strptime Utc.timestamp None evs eq_refl).
Defined.

(** ** A press on the button, then a reading *)

(** X18. When no command is pending a power result is taken for a press on
    the button, and a reading whose date is within the hour that follows
    (the test of line 135 fails against the time of the result) publishes
    nothing, however cold or hot it is: the status stays the forced one. *)
Theorem button_press_suppresses_commands
    (strptime : string -> option datetime) (timestamp : datetime -> pyfloat)
    env0 message0 p env message s d t h :
  command_sent s = false ->
  getitem message0 "POWER" = Some p ->
  field_date strptime message = Some d ->
  field_temperature message = Some t ->
  field_humidity message = Some h ->
  truthy t = true -> truthy h = true -> can_save env = true ->
  automatic timestamp (NFloat (time_time env0)) d = false ->
  let s1 := state_of (on_message strptime timestamp env0
                        (mk_msg RESULT (Some message0)) s) in
  let r := on_message strptime timestamp env (mk_msg SENSOR (Some message)) s1 in
  published (effects_of r) = [] /\
  status (state_of r) = p /\
  forced_ts (state_of r) = NFloat (time_time env0) /\
  command_sent (state_of r) = false.
Proof.
  intros Hc Hp Hd Ht Hh Tt Th Hsave Ha s1 r. subst r s1.
  rewrite (on_message_power strptime timestamp env0 message0 p s Hp), Hc.
  rewrite (on_message_reading strptime timestamp env message _ d t h
             Hd Ht Hh Tt Th Hsave).
  cbv zeta. rewrite control_run.
  cbn [state_of fst snd forced_ts status set_queue set_forced_ts set_status].
  rewrite Ha.
  destruct (time_left timestamp (NFloat (time_time env0)) d);
    cbn; rewrite ?Hc; repeat split.
Qed.

(** The button is pressed at 06:00:00; at 06:10:00 it is 15 degrees. *)
Lemma button_press_suppresses_commands_witness :
  let s1 := state_of (Utc.on_message (Utc.env Utc.six_o_clock) (Utc.stat "OFF")
                        (Utc.heater "ON" false (NInt 0))) in
  let r := Utc.on_message (Utc.env 0)
             (Utc.tele "2023-11-15T06:10:00" (Utc.degrees 150) (JInt 40)) s1 in
  published (effects_of r) = [] /\
  status (state_of r) = JStr "OFF" /\
  forced_ts (state_of r) = NFloat (float_of_Z Utc.six_o_clock) /\
  command_sent (state_of r) = false.
Proof.
  intros s1 r.
  exact (button_press_suppresses_commands Utc.strptime Utc.timestamp
           (Utc.env Utc.six_o_clock) (JObj [("POWER", JStr "OFF")]) (JStr "OFF")
           (Utc.env 0)
           (Utc.sensor "2023-11-15T06:10:00" (Utc.degrees 150) (JInt 40))
           (Utc.heater "ON" false (NInt 0))
           (Utc.at_time 6 10 0) (Utc.degrees 150) (JInt 40)
           eq_refl eq_refl eq_refl eq_refl eq_refl eq_refl eq_refl eq_refl eq_refl).
Defined.
